(** * link_checker.py: a shallow embedding and its specification

    The module crawls an author's profile feed, lists the article URLs found
    on it, visits every article, and checks each hyperlink of the article
    (status code and redirect chain).  The embedding follows the Python
    source function by function.

    - Python [str] values are [string]s (byte strings; every character the
      code inspects -- '?' and '/' -- is ASCII).
    - A raised exception is a value of [exception]; a function that can raise
      returns a [Result].
    - The network, the HTML parser and the public-suffix extractor are the
      three libraries the module calls ([requests], [bs4], [tldextract]).
      They are section variables; what the module relies on from their
      objects ([Response.__bool__], [Tag.__getitem__], [Tag.__bool__],
      [find], [find_all], [get_text]) is written out below.
    - Effects (requests in order, the clock read by [time.time()]) are
      threaded through a state-and-exception monad [M]. *)

From Stdlib Require Import String Ascii List ZArith Bool Arith Lia.
Import ListNotations.
Local Open Scope string_scope.
Local Open Scope list_scope.
Set Warnings "-register-all".

(** ** Python exceptions and results *)

Inductive exception : Type :=
| KeyError (key : string)
| AttributeError (msg : string)
| IndexError (msg : string)
| TypeError (msg : string)
| RequestException (msg : string).

Inductive Result (A : Type) : Type :=
| Ok (a : A)
| Raise (e : exception).
Arguments Ok {A} a.
Arguments Raise {A} e.

Definition result_bind {A B} (r : Result A) (k : A -> Result B) : Result B :=
  match r with
  | Ok a => k a
  | Raise e => Raise e
  end.

(** ** Python string operations used by the module *)

Module PyStr.

(** [x in s] *)
Fixpoint contains (x s : string) : bool :=
  if String.prefix x s then true
  else match s with
       | EmptyString => false
       | String _ s' => contains x s'
       end.

(** [s.split(sep)] for a one-character separator. *)
Fixpoint split (sep : ascii) (s : string) : list string :=
  match s with
  | EmptyString => [EmptyString]
  | String c s' =>
      if Ascii.eqb c sep then EmptyString :: split sep s'
      else match split sep s' with
           | h :: t => String c h :: t
           | [] => [String c EmptyString]
           end
  end.

(** [l[0]] on a list *)
Definition item0 (l : list string) : Result string :=
  match l with
  | h :: _ => Ok h
  | [] => Raise (IndexError "list index out of range")
  end.

(** [s[0]] *)
Definition first_char (s : string) : Result ascii :=
  match s with
  | String c _ => Ok c
  | EmptyString => Raise (IndexError "string index out of range")
  end.

(** [s[-1]] *)
Fixpoint last_char (s : string) : Result ascii :=
  match s with
  | EmptyString => Raise (IndexError "string index out of range")
  | String c EmptyString => Ok c
  | String _ s' => last_char s'
  end.

(** [s[:-1]] *)
Fixpoint drop_last (s : string) : string :=
  match s with
  | EmptyString => EmptyString
  | String _ EmptyString => EmptyString
  | String c s' => String c (drop_last s')
  end.

(** [c.isspace()] on the ASCII range.  Python also counts the Unicode
    spaces (U+00A0 and the like); text holding them is outside this
    model, which reads strings byte by byte. *)
Definition isspace (c : ascii) : bool :=
  let n := nat_of_ascii c in
  ((9 <=? n)%nat && (n <=? 13)%nat) || ((28 <=? n)%nat && (n <=? 32)%nat).

Fixpoint lstrip (s : string) : string :=
  match s with
  | EmptyString => EmptyString
  | String c s' => if isspace c then lstrip s' else s
  end.

Fixpoint rstrip (s : string) : string :=
  match s with
  | EmptyString => EmptyString
  | String c s' =>
      match rstrip s' with
      | EmptyString => if isspace c then EmptyString else String c EmptyString
      | r => String c r
      end
  end.

(** [s.strip()] *)
Definition strip (s : string) : string := rstrip (lstrip s).

(** ["".join(l)] *)
Definition join (l : list string) : string :=
  fold_right String.append EmptyString l.

(** The part of [s] before the first [sep]; all of [s] when [sep] does
    not occur.  Used to state what [split(sep)[0]] computes. *)
Fixpoint before_first (sep : ascii) (s : string) : string :=
  match s with
  | EmptyString => EmptyString
  | String c s' =>
      if Ascii.eqb c sep then EmptyString else String c (before_first sep s')
  end.

(** The rest of [s] from the first [sep] onward (empty when absent). *)
Fixpoint from_first (sep : ascii) (s : string) : string :=
  match s with
  | EmptyString => EmptyString
  | String c s' => if Ascii.eqb c sep then s else from_first sep s'
  end.

Definition is_empty (s : string) : bool :=
  match s with EmptyString => true | _ => false end.

End PyStr.

(** ** The parsed document (bs4) *)

Inductive PageElement : Type :=
| NavigableString (s : string)
| Tag (name : string) (attrs : list (string * string))
      (contents : list PageElement).

Module Bs4.

Fixpoint lookup (key : string) (d : list (string * string)) : option string :=
  match d with
  | [] => None
  | (k, v) :: d' => if String.eqb k key then Some v else lookup key d'
  end.

(** [tag[key]]: [Tag.__getitem__] returns [self.attrs[key]], so a missing
    key raises [KeyError]; a [NavigableString] is a [str], whose index
    must be an integer. *)
Definition getitem (a : PageElement) (key : string) : Result string :=
  match a with
  | Tag _ attrs _ =>
      match lookup key attrs with
      | Some v => Ok v
      | None => Raise (KeyError key)
      end
  | NavigableString _ => Raise (TypeError "string indices must be integers")
  end.

(** [tag.descendants]: every node below [t], in document order. *)
Fixpoint descendants (t : PageElement) : list PageElement :=
  match t with
  | NavigableString _ => []
  | Tag _ _ cs =>
      (fix go (l : list PageElement) : list PageElement :=
         match l with
         | [] => []
         | c :: r => c :: descendants c ++ go r
         end) cs
  end.

Definition is_tag (name : string) (t : PageElement) : bool :=
  match t with
  | Tag n _ _ => String.eqb n name
  | NavigableString _ => false
  end.

(** [tag.find_all(name)] *)
Definition find_all (name : string) (t : PageElement) : list PageElement :=
  filter (is_tag name) (descendants t).

(** [tag.find(name)]: the first match, or [None]. *)
Definition find (name : string) (t : PageElement) : option PageElement :=
  match find_all name t with
  | x :: _ => Some x
  | [] => None
  end.

(** The strings yielded by [tag._all_strings(strip=True)]: every text
    node below the tag, stripped, the empty ones dropped. *)
Definition stripped_strings (t : PageElement) : list string :=
  flat_map
    (fun d =>
       match d with
       | NavigableString s =>
           let s' := PyStr.strip s in
           if PyStr.is_empty s' then [] else [s']
       | Tag _ _ _ => []
       end)
    (descendants t).

(** [tag.get_text(strip=True)] *)
Definition get_text_strip (t : PageElement) : string :=
  PyStr.join (stripped_strings t).

End Bs4.

(** ** The response object (requests) *)

Inductive Response : Type :=
| mkResponse (url : string) (text : string) (status_code : Z)
             (history : list Response).

Module Resp.

Definition url (r : Response) : string :=
  match r with mkResponse u _ _ _ => u end.
Definition text (r : Response) : string :=
  match r with mkResponse _ t _ _ => t end.
Definition status_code (r : Response) : Z :=
  match r with mkResponse _ _ s _ => s end.
Definition history (r : Response) : list Response :=
  match r with mkResponse _ _ _ h => h end.

(** [Response.ok]: [raise_for_status()] raises for a status in
    400..599, and [ok] is false exactly then. *)
Definition ok (r : Response) : bool :=
  negb ((400 <=? status_code r)%Z && (status_code r <? 600)%Z).

(** [Response.__bool__] returns [self.ok]. *)
Definition truthy (r : Response) : bool := ok r.

End Resp.

(** ** The world: what the effects of a run read and change *)

Record World : Type := mkWorld {
  clock : nat;               (* advanced by every request *)
  requested : list string    (* URLs requested so far, oldest first *)
}.

Definition M (A : Type) : Type := World -> Result A * World.

Definition ret {A} (a : A) : M A := fun w => (Ok a, w).
Definition raise {A} (e : exception) : M A := fun w => (Raise e, w).
Definition bind {A B} (m : M A) (k : A -> M B) : M B :=
  fun w =>
    match m w with
    | (Ok a, w') => k a w'
    | (Raise e, w') => (Raise e, w')
    end.
Definition lift {A} (r : Result A) : M A := fun w => (r, w).

Declare Scope py_scope.
Delimit Scope py_scope with py.
Notation "x <- m ;; k" := (bind m (fun x => k))
  (at level 61, m at next level, right associativity) : py_scope.
Local Open Scope py_scope.

(** ** The [Link] class *)

Record Link : Type := mkLink {
  url : string;
  anchor : string;
  http_status : Z;
  redirect_chain : list string;
  final_url : string
}.

(** [x if x else []] for an optional list argument: [None] and the empty
    list are both falsy. *)
Definition given_or_empty (redirect_chain : option (list string)) : list string :=
  match redirect_chain with
  | Some (x :: l) => x :: l
  | Some [] => []
  | None => []
  end.

(** [Link.__init__] *)
Definition Link_init (url anchor : string) (http_status : Z)
    (redirect_chain : option (list string)) : Link :=
  let self_redirect_chain := given_or_empty redirect_chain in
  let self_final_url :=
    if Nat.eqb (length self_redirect_chain) 0 then url
    else last self_redirect_chain EmptyString in
  mkLink url anchor http_status self_redirect_chain self_final_url.

(** Values of the serialised report: strings, integers, lists and dicts
    (a dict keeps its keys in insertion order). *)
Inductive PyVal : Type :=
| PStr (s : string)
| PInt (z : Z)
| PList (l : list PyVal)
| PDict (d : list (string * PyVal)).

(** [Link.to_dict] *)
Definition to_dict (self : Link) : list (string * PyVal) :=
  [ ("url", PStr (url self));
    ("anchor", PStr (anchor self));
    ("http_status", PInt (http_status self));
    ("redirect_chain", PList (map PStr (redirect_chain self)));
    ("final_url", PStr (final_url self)) ].

Definition keys {V} (d : list (string * V)) : list string := map fst d.

(** ** The functions of the module *)

Section LinkChecker.

(** [requests.get(url=url)]: a response, or the exception it raises
    (connection error, timeout, invalid URL). *)
Variable requests_get : string -> Result Response.

(** [bs4.BeautifulSoup(text, 'lxml')]: the root of the parsed document. *)
Variable BeautifulSoup : string -> PageElement.

(** [tldextract.extract(url).fqdn] *)
Variable fqdn : string -> string.

(** [str(t)] for a reading [t] of the clock. *)
Variable str_time : nat -> string.

(** [make_request] *)
Definition make_request (url : string) : M Response :=
  fun w =>
    (requests_get url,
     mkWorld (S (clock w)) (requested w ++ [url])).

(** [time.time()] *)
Definition time_time : M nat := fun w => (Ok (clock w), w).

(** The base of the article URLs: [data.url[:-1] if data.url[-1] == '/'
    else data.url]. *)
Definition trim_slash (data_url : string) : Result string :=
  result_bind (PyStr.last_char data_url) (fun c =>
    if Ascii.eqb c "/"%char then Ok (PyStr.drop_last data_url)
    else Ok data_url).

(** [href.split('?')[0] if "?" in href else href] *)
Definition remove_tracking (href : string) : Result string :=
  if PyStr.contains "?" href then PyStr.item0 (PyStr.split "?"%char href)
  else Ok href.

(** The body of the loop of [get_medium_article_links]: what one article
    block adds to [links]. *)
Definition article_step (data : Response) (article : PageElement)
    (links : list string) : Result (list string) :=
  match Bs4.find "a" article with
  | Some link =>                       (* a [Tag] is always truthy *)
      result_bind (trim_slash (Resp.url data)) (fun base =>
      result_bind (Bs4.getitem link "href") (fun h =>
      result_bind (remove_tracking (base ++ h)%string) (fun href =>
      Ok (links ++ [href]))))
  | None => Ok links
  end.

Fixpoint article_loop (data : Response) (articles : list PageElement)
    (links : list string) : Result (list string) :=
  match articles with
  | [] => Ok links
  | article :: rest =>
      result_bind (article_step data article links)
                  (article_loop data rest)
  end.

(** [get_medium_article_links] *)
Definition get_medium_article_links (url : string) : M (list string) :=
  data <- make_request url ;;
  let soup := BeautifulSoup (Resp.text data) in
  let articles := Bs4.find_all "article" soup in
  lift (article_loop data articles []).

(** The allow-list test of [extract_href]:
    [any(x in href for x in ['youtube.com/watch'])]. *)
Definition keeps_params (href : string) : bool :=
  existsb (fun x => PyStr.contains x href) ["youtube.com/watch"].

(** Lines 70-75 of [extract_href]: the parameter stripping. *)
Definition strip_step (strip_params : bool) (href : string) : Result string :=
  if strip_params then
    if negb (keeps_params href) then PyStr.item0 (PyStr.split "?"%char href)
    else Ok href
  else Ok href.

(** Lines 77-81 of [extract_href]: relative links are made absolute. *)
Definition reconstitute (current_domain scheme href : string) : Result string :=
  result_bind (PyStr.first_char href) (fun c =>
    if Ascii.eqb c "/"%char
    then Ok (scheme ++ "://" ++ current_domain ++ href)%string
    else Ok href).

(** [extract_href].  The [try] catches [AttributeError] only. *)
Definition extract_href (a : PageElement) (current_domain scheme : string)
    (strip_params : bool) : Result string :=
  match Bs4.getitem a "href" with
  | Raise (AttributeError _) => Ok EmptyString
  | Raise e => Raise e
  | Ok href =>
      result_bind (strip_step strip_params href) (fun href =>
      reconstitute current_domain scheme href)
  end.

(** The loop of [Link.create_link] that collects the URLs of the
    redirect history. *)
Definition collect_redirects (history : list Response) : list string :=
  fold_left (fun redirects r => redirects ++ [Resp.url r]) history [].

(** [Link.create_link] *)
Definition create_link (url anchor : string) : M (option Link) :=
  data <- make_request url ;;
  if negb (Resp.truthy data) then ret None
  else
    let redirects := collect_redirects (Resp.history data) in
    ret (Some (Link_init url anchor (Resp.status_code data) (Some redirects))).

(** The loop of [check_medium_article_links] over the anchors of the
    article block. *)
Fixpoint link_loop (current_domain : string) (anchors : list PageElement)
    (links : list Link) : M (list Link) :=
  match anchors with
  | [] => ret links
  | a :: rest =>
      u <- lift (extract_href a current_domain "https" true) ;;
      the_link <- create_link u (Bs4.get_text_strip a) ;;
      match the_link with
      | Some l => link_loop current_domain rest (links ++ [l])
      | None => link_loop current_domain rest links
      end
  end.

(** [check_medium_article_links].  [soup.find('article')] is [None] when
    the page has no such block, and [None.find_all] raises. *)
Definition check_medium_article_links (url : string) : M (list Link) :=
  data <- make_request url ;;
  let soup := BeautifulSoup (Resp.text data) in
  let article := Bs4.find "article" soup in
  let current_domain := fqdn url in
  match article with
  | Some art => link_loop current_domain (Bs4.find_all "a" art) []
  | None =>
      raise (AttributeError "'NoneType' object has no attribute 'find_all'")
  end.

(** One record of the report. *)
Definition report_record (link : string) (timestamp : string)
    (article_links : list Link) : PyVal :=
  PDict [ ("url", PStr link);
          ("timestamp", PStr timestamp);
          ("links", PList (map (fun l => PDict (to_dict l)) article_links)) ].

(** The loop of [check_medium_links]. *)
Fixpoint report_loop (links : list string) (output : list PyVal)
    : M (list PyVal) :=
  match links with
  | [] => ret output
  | link :: rest =>
      article_links <- check_medium_article_links link ;;
      t <- time_time ;;
      report_loop rest
        (output ++ [report_record link (str_time t) article_links])
  end.

(** [check_medium_links] *)
Definition check_medium_links (profile_url : string) : M (list PyVal) :=
  links <- get_medium_article_links profile_url ;;
  report_loop links [].

End LinkChecker.

(** ** A small web to run the module on

    Attribute values are written with single quotes in the page texts.  The
    parser is the table of the pages below, and the domain extractor keeps
    the host between the scheme and the path (all hosts below are a
    registrable domain, with or without a subdomain). *)

Module Web.

Definition a_href (href txt : string) : PageElement :=
  Tag "a" [("href", href)] [NavigableString txt].

Definition document (body : list PageElement) : PageElement :=
  Tag "[document]" [] [Tag "html" [] [Tag "body" [] body]].

(** The profile feed: two article blocks, each with one hyperlink. *)
Definition profile_text : string :=
  "<article><a href='/post-1?source=feed'>One</a></article><article><h2>Two</h2><a href='/post-2'>Two</a></article>".
Definition profile_doc : PageElement :=
  document
    [ Tag "article" [] [a_href "/post-1?source=feed" "One"];
      Tag "article" [] [Tag "h2" [] [NavigableString "Two"];
                        a_href "/post-2" "Two"] ].

(** First article: three links, the last one answers 404. *)
Definition post1_text : string :=
  "<article><a href='https://example.com/a?utm=1'> A </a><a href='/about'>About</a><a href='https://example.com/gone'>Gone</a></article>".
Definition post1_doc : PageElement :=
  document
    [ Tag "article" []
        [ a_href "https://example.com/a?utm=1" " A ";
          a_href "/about" "About";
          a_href "https://example.com/gone" "Gone" ] ].

(** Second article: a video link, a redirected link, and a 404. *)
Definition post2_text : string :=
  "<article><a href='https://www.youtube.com/watch?v=xyz'>Video</a><a href='http://old.example.com/x'>Old</a><a href='https://example.com/missing'>Missing</a></article>".
Definition post2_doc : PageElement :=
  document
    [ Tag "article" []
        [ a_href "https://www.youtube.com/watch?v=xyz" "Video";
          a_href "http://old.example.com/x" "Old";
          a_href "https://example.com/missing" "Missing" ] ].

(** An article reached through a redirect to the branded subdomain. *)
Definition post3_text : string :=
  "<article><a href='/about'>About</a></article>".
Definition post3_doc : PageElement :=
  document [ Tag "article" [] [a_href "/about" "About"] ].

(** A page without an article block. *)
Definition plain_text : string := "<p>Nothing here</p>".
Definition plain_doc : PageElement :=
  document [ Tag "p" [] [NavigableString "Nothing here"] ].

(** An article whose second anchor has no href attribute. *)
Definition named_anchor : PageElement :=
  Tag "a" [("name", "top")] [NavigableString "Top"].
Definition post4_text : string :=
  "<article><a href='https://example.com/a'>A</a><a name='top'>Top</a></article>".
Definition post4_doc : PageElement :=
  document
    [ Tag "article" [] [a_href "https://example.com/a" "A"; named_anchor] ].

(** An article whose first anchor has only a query string as href. *)
Definition post5_text : string :=
  "<article><a href='?page=2'>Next</a><a href='https://example.com/a'>A</a></article>".
Definition post5_doc : PageElement :=
  document
    [ Tag "article" []
        [a_href "?page=2" "Next"; a_href "https://example.com/a" "A"] ].

(** An article whose first link points to a host that does not resolve. *)
Definition post6_text : string :=
  "<article><a href='https://no-such-host.invalid/'>Dead</a><a href='https://example.com/a'>A</a></article>".
Definition post6_doc : PageElement :=
  document
    [ Tag "article" []
        [ a_href "https://no-such-host.invalid/" "Dead";
          a_href "https://example.com/a" "A" ] ].

(** A profile feed without article blocks, and one whose second block
    has no hyperlink. *)
Definition empty_profile_text : string := "<p>No stories yet</p>".
Definition empty_profile_doc : PageElement :=
  document [ Tag "p" [] [NavigableString "No stories yet"] ].

Definition pages : list (string * PageElement) :=
  [ (profile_text, profile_doc); (post1_text, post1_doc);
    (post2_text, post2_doc); (post3_text, post3_doc);
    (plain_text, plain_doc); (post4_text, post4_doc);
    (post5_text, post5_doc); (post6_text, post6_doc);
    (empty_profile_text, empty_profile_doc) ].

Fixpoint page_of (text : string) (l : list (string * PageElement))
    : PageElement :=
  match l with
  | [] => Tag "[document]" [] []
  | (t, d) :: l' => if String.eqb t text then d else page_of text l'
  end.

Definition parse (text : string) : PageElement := page_of text pages.

Definition page200 (u text : string) : Response := mkResponse u text 200 [].

(** What a GET of each URL answers. *)
Definition site : list (string * Result Response) :=
  [ ("https://medium.com/@pub",
     Ok (mkResponse "https://pub.medium.com/" profile_text 200
           [mkResponse "https://medium.com/@pub" "" 301 []]));
    ("https://pub.medium.com/post-1",
     Ok (page200 "https://pub.medium.com/post-1" post1_text));
    ("https://pub.medium.com/post-2",
     Ok (page200 "https://pub.medium.com/post-2" post2_text));
    ("https://medium.com/@pub/post-3",
     Ok (mkResponse "https://pub.medium.com/post-3" post3_text 200
           [mkResponse "https://medium.com/@pub/post-3" "" 301 []]));
    ("https://pub.medium.com/plain",
     Ok (page200 "https://pub.medium.com/plain" plain_text));
    ("https://pub.medium.com/post-4",
     Ok (page200 "https://pub.medium.com/post-4" post4_text));
    ("https://pub.medium.com/post-5",
     Ok (page200 "https://pub.medium.com/post-5" post5_text));
    ("https://pub.medium.com/post-6",
     Ok (page200 "https://pub.medium.com/post-6" post6_text));
    ("https://medium.com/@nobody",
     Ok (page200 "https://medium.com/@nobody" empty_profile_text));
    ("https://example.com/a", Ok (page200 "https://example.com/a" "a"));
    ("https://pub.medium.com/about",
     Ok (page200 "https://pub.medium.com/about" "about pub"));
    ("https://medium.com/about",
     Ok (page200 "https://medium.com/about" "about medium"));
    ("https://example.com/gone",
     Ok (mkResponse "https://example.com/gone" "not found" 404 []));
    ("https://example.com/missing",
     Ok (mkResponse "https://example.com/missing" "not found" 404 []));
    ("https://www.youtube.com/watch?v=xyz",
     Ok (page200 "https://www.youtube.com/watch?v=xyz" "video"));
    ("http://old.example.com/x",
     Ok (mkResponse "https://example.com/x" "x" 200
           [mkResponse "http://old.example.com/x" "" 301 []])) ].

Fixpoint answer (u : string) (l : list (string * Result Response))
    : Result Response :=
  match l with
  | [] => Raise (RequestException "ConnectionError")
  | (k, r) :: l' => if String.eqb k u then r else answer u l'
  end.

Definition get (u : string) : Result Response := answer u site.

Fixpoint after_scheme (u : string) : string :=
  match u with
  | EmptyString => EmptyString
  | String c u' =>
      if String.prefix "://" u then String.substring 3 (String.length u) u
      else after_scheme u'
  end.

Definition host (u : string) : string :=
  PyStr.before_first "/"%char (after_scheme u).

(** The clock reading written in unary. *)
Fixpoint tally (n : nat) : string :=
  match n with
  | O => EmptyString
  | S n' => String "|"%char (tally n')
  end.

Definition start : World := mkWorld 0 [].

(** The run on the profile of the small web: the listed articles, the
    Links of each, and the worlds in which the two checks return. *)
Definition articles : list string :=
  ["https://pub.medium.com/post-1"; "https://pub.medium.com/post-2"].

Definition links1 : list Link :=
  [ mkLink "https://example.com/a" "A" 200 [] "https://example.com/a";
    mkLink "https://pub.medium.com/about" "About" 200 []
           "https://pub.medium.com/about" ].

Definition links2 : list Link :=
  [ mkLink "https://www.youtube.com/watch?v=xyz" "Video" 200 []
           "https://www.youtube.com/watch?v=xyz";
    mkLink "http://old.example.com/x" "Old" 200 ["http://old.example.com/x"]
           "http://old.example.com/x" ].

Definition listed_world : World := mkWorld 1 ["https://medium.com/@pub"].

Definition post1_world : World :=
  mkWorld 5 [ "https://medium.com/@pub"; "https://pub.medium.com/post-1";
              "https://example.com/a"; "https://pub.medium.com/about";
              "https://example.com/gone" ].

Definition post2_world : World :=
  mkWorld 9 [ "https://medium.com/@pub"; "https://pub.medium.com/post-1";
              "https://example.com/a"; "https://pub.medium.com/about";
              "https://example.com/gone"; "https://pub.medium.com/post-2";
              "https://www.youtube.com/watch?v=xyz";
              "http://old.example.com/x"; "https://example.com/missing" ].

End Web.

(** ** Vocabulary of the statements *)

(** The href [extract_href] goes on with after lines 70-75, for an href
    that is present. *)
Definition stripped (strip_params : bool) (href : string) : string :=
  if strip_params && negb (keeps_params href)
  then PyStr.before_first "?"%char href
  else href.

(** C4, as the claim states it: an href that begins with '/' comes back
    unchanged behind scheme, "://" and domain. *)
Definition relative_href_kept_whole : Prop :=
  forall (name : string) (attrs : list (string * string))
         (contents : list PageElement) (domain href rest : string),
    Bs4.lookup "href" attrs = Some href ->
    href = String "/"%char rest ->
    extract_href (Tag name attrs contents) domain "https" true =
    Ok ("https" ++ "://" ++ domain ++ href)%string.

(** The resolved page URL without its trailing slash. *)
Definition ends_with_slash (u : string) : bool :=
  match PyStr.last_char u with
  | Ok c => Ascii.eqb c "/"%char
  | Raise _ => false
  end.

Definition trimmed (u : string) : string :=
  if ends_with_slash u then PyStr.drop_last u else u.

(** The href of the first anchor of an article block: [Ok None] when the
    block has no anchor, an exception when that anchor has no href. *)
Definition first_href (article : PageElement) : Result (option string) :=
  match Bs4.find "a" article with
  | None => Ok None
  | Some link => result_bind (Bs4.getitem link "href") (fun h => Ok (Some h))
  end.

(** The href of the hyperlink of a block that contains exactly one: the
    block has a single anchor element below it, and that anchor carries an
    href. *)
Definition sole_href (article : PageElement) : option string :=
  match Bs4.find_all "a" article with
  | [link] =>
      match Bs4.getitem link "href" with
      | Ok h => Some h
      | Raise _ => None
      end
  | _ => None
  end.

(** The article URL made from the page base and an href. *)
Definition article_url (base href : string) : string :=
  PyStr.before_first "?"%char (base ++ href)%string.

(** The URLs listed for the blocks whose first hrefs are [hs]. *)
Definition listed (base : string) (hs : list (option string)) : list string :=
  flat_map (fun o => match o with
                     | Some h => [article_url base h]
                     | None => []
                     end) hs.

(** The five fields of a serialised Link. *)
Definition link_fields : list string :=
  ["url"; "anchor"; "http_status"; "redirect_chain"; "final_url"].

(** [checked_in_order get parse fqdn links w trace w']: starting in world
    [w], the articles [links] are checked one after the other without an
    exception; [trace] holds, for each, its URL, its Links and the world in
    which its check returned, and [w'] is the world at the end. *)
Inductive checked_in_order
    (requests_get : string -> Result Response)
    (BeautifulSoup : string -> PageElement) (fqdn : string -> string)
  : list string -> World -> list (string * list Link * World) -> World -> Prop :=
| checked_nil (w : World) :
    checked_in_order requests_get BeautifulSoup fqdn [] w [] w
| checked_cons (link : string) (rest : list string) (w w' w'' : World)
    (article_links : list Link) (trace : list (string * list Link * World)) :
    check_medium_article_links requests_get BeautifulSoup fqdn link w =
      (Ok article_links, w') ->
    checked_in_order requests_get BeautifulSoup fqdn rest w' trace w'' ->
    checked_in_order requests_get BeautifulSoup fqdn (link :: rest) w
      ((link, article_links, w') :: trace) w''.

(** The record written for one entry of the trace. *)
Definition record_of (str_time : nat -> string)
    (entry : string * list Link * World) : PyVal :=
  match entry with
  | (link, article_links, w) =>
      report_record link (str_time (clock w)) article_links
  end.

(** ** Vocabulary of the further statements *)

(** [s] begins with the character [c]. *)
Definition begins_with (c : ascii) (s : string) : bool :=
  match s with
  | String c' _ => Ascii.eqb c' c
  | EmptyString => false
  end.

(** The status of a response is an error status (400..599). *)
Definition error_status (status : Z) : bool :=
  ((400 <=? status)%Z && (status <? 600)%Z).

(** The Link that [create_link] builds from the response to a request
    for [u]: none for an error status. *)
Definition expected_link (u a : string) (data : Response) : option Link :=
  if error_status (Resp.status_code data) then None
  else Some (mkLink u a (Resp.status_code data)
               (map Resp.url (Resp.history data))
               (last (map Resp.url (Resp.history data)) u)).

(** The Links of a list of (normalised href, anchor text) pairs, in
    order, given what each request answers. *)
Definition checked_links (requests_get : string -> Result Response)
    (pairs : list (string * string)) : list Link :=
  flat_map
    (fun p =>
       match requests_get (fst p) with
       | Ok data =>
           match expected_link (fst p) (snd p) data with
           | Some l => [l]
           | None => []
           end
       | Raise _ => []
       end) pairs.

(** The world after the requests for [urls], made in that order. *)
Definition after_requests (w : World) (urls : list string) : World :=
  mkWorld (clock w + length urls) (requested w ++ urls).

(** ** A second small web: feeds with a bad block or a bad article *)

Module Feed.

(** Three article blocks; the second article page has no article block. *)
Definition mixed_text : string :=
  "<article><a href='/post-1'>One</a></article><article><a href='/plain'>Plain</a></article><article><a href='/post-2'>Two</a></article>".
Definition mixed_doc : PageElement :=
  Web.document
    [ Tag "article" [] [Web.a_href "/post-1" "One"];
      Tag "article" [] [Web.a_href "/plain" "Plain"];
      Tag "article" [] [Web.a_href "/post-2" "Two"] ].

(** Two article blocks; the first anchor of the second has no href. *)
Definition broken_text : string :=
  "<article><a href='/post-1'>One</a></article><article><a name='top'>Top</a><a href='/post-2'>Two</a></article>".
Definition broken_doc : PageElement :=
  Web.document
    [ Tag "article" [] [Web.a_href "/post-1" "One"];
      Tag "article" [] [Web.named_anchor; Web.a_href "/post-2" "Two"] ].

Definition parse (text : string) : PageElement :=
  if String.eqb text mixed_text then mixed_doc
  else if String.eqb text broken_text then broken_doc
  else Web.parse text.

(** The feed of [Web] again, reached with a query string that the
    redirect keeps. *)
Definition tracked_profile : Response :=
  mkResponse "https://pub.medium.com/?source=home" Web.profile_text 200
    [mkResponse "https://medium.com/@pub?source=home" "" 301 []].

Definition get (u : string) : Result Response :=
  if String.eqb u "https://medium.com/@mixed"
  then Ok (Web.page200 "https://pub.medium.com/" mixed_text)
  else if String.eqb u "https://medium.com/@broken"
  then Ok (Web.page200 "https://pub.medium.com/" broken_text)
  else if String.eqb u "https://medium.com/@pub?source=home"
  then Ok tracked_profile
  else Web.get u.

Definition mixed_articles : list string :=
  [ "https://pub.medium.com/post-1"; "https://pub.medium.com/plain";
    "https://pub.medium.com/post-2" ].

Definition mixed_listed_world : World :=
  mkWorld 1 ["https://medium.com/@mixed"].

Definition mixed_post1_world : World :=
  mkWorld 5 [ "https://medium.com/@mixed"; "https://pub.medium.com/post-1";
              "https://example.com/a"; "https://pub.medium.com/about";
              "https://example.com/gone" ].

Definition mixed_plain_world : World :=
  mkWorld 6 [ "https://medium.com/@mixed"; "https://pub.medium.com/post-1";
              "https://example.com/a"; "https://pub.medium.com/about";
              "https://example.com/gone"; "https://pub.medium.com/plain" ].

End Feed.

(** ** A feed whose only article block has an anchor without href *)

Module Placeholder.

Definition feed_text : string :=
  "<article><a name='top'>Top</a></article>".
Definition feed_block : PageElement := Tag "article" [] [Web.named_anchor].
Definition feed_doc : PageElement := Web.document [feed_block].

Definition feed : Response :=
  Web.page200 "https://medium.com/@anchor" feed_text.

Definition parse (text : string) : PageElement :=
  if String.eqb text feed_text then feed_doc else Feed.parse text.

Definition get (u : string) : Result Response :=
  if String.eqb u "https://medium.com/@anchor" then Ok feed else Feed.get u.

End Placeholder.

(** C9, as the claim states it: every run whose listing discovers [links]
    returns one record per discovered URL, in the same order, each with
    that URL, a timestamp string and the article's Links. *)
Definition every_run_reports : Prop :=
  forall (requests_get : string -> Result Response)
         (BeautifulSoup : string -> PageElement) (fqdn : string -> string)
         (str_time : nat -> string) (profile_url : string)
         (links : list string) (w0 w1 : World),
    get_medium_article_links requests_get BeautifulSoup profile_url w0 =
      (Ok links, w1) ->
    exists output,
      fst (check_medium_links requests_get BeautifulSoup fqdn str_time
             profile_url w0) = Ok output /\
      Forall2 (fun link record =>
                 exists timestamp article_links,
                   record = report_record link timestamp article_links)
              links output.

(** ** Facts about the string operations *)

Module PyStrFacts.
Import PyStr.

Lemma split_not_nil (sep : ascii) (s : string) : split sep s <> [].
Proof.
  destruct s as [|c s]; simpl; [discriminate|].
  destruct (Ascii.eqb c sep); [discriminate|].
  destruct (split sep s); discriminate.
Qed.

(** [s.split(sep)[0]] never raises and is the part before the first
    separator. *)
Lemma item0_split (sep : ascii) (s : string) :
  item0 (split sep s) = Ok (before_first sep s).
Proof.
  induction s as [|c s IH]; simpl; [reflexivity|].
  destruct (Ascii.eqb c sep); [reflexivity|].
  destruct (split sep s) as [|h t] eqn:E; simpl in *.
  - discriminate IH.
  - injection IH as ->. reflexivity.
Qed.

Lemma before_from (sep : ascii) (s : string) :
  s = (before_first sep s ++ from_first sep s)%string.
Proof.
  induction s as [|c s IH]; simpl; [reflexivity|].
  destruct (Ascii.eqb c sep); simpl; [reflexivity|].
  f_equal. exact IH.
Qed.

Lemma from_first_shape (sep : ascii) (s : string) :
  from_first sep s = EmptyString \/
  exists rest, from_first sep s = String sep rest.
Proof.
  induction s as [|c s IH]; simpl; [left; reflexivity|].
  destruct (Ascii.eqb_spec c sep) as [->|_]; [right; eauto | exact IH].
Qed.

Lemma prefix_char (c a : ascii) (s : string) :
  String.prefix (String c EmptyString) (String a s) = Ascii.eqb a c.
Proof.
  simpl. destruct (ascii_dec c a) as [->|N].
  - rewrite Ascii.eqb_refl. destruct s; reflexivity.
  - symmetry. apply Ascii.eqb_neq. congruence.
Qed.

Lemma contains_char_cons (c a : ascii) (s : string) :
  contains (String c EmptyString) (String a s) =
  Ascii.eqb a c || contains (String c EmptyString) s.
Proof.
  change (contains (String c EmptyString) (String a s))
    with (if String.prefix (String c EmptyString) (String a s) then true
          else contains (String c EmptyString) s).
  rewrite prefix_char. destruct (Ascii.eqb a c); reflexivity.
Qed.

(** No separator is left in the part before the first one. *)
Lemma before_first_clean (sep : ascii) (s : string) :
  contains (String sep EmptyString) (before_first sep s) = false.
Proof.
  induction s as [|c s IH]; simpl; [reflexivity|].
  destruct (Ascii.eqb c sep) eqn:E; [reflexivity|].
  rewrite contains_char_cons, E, IH. reflexivity.
Qed.

(** Without a separator nothing is removed. *)
Lemma before_first_id (sep : ascii) (s : string) :
  contains (String sep EmptyString) s = false -> before_first sep s = s.
Proof.
  induction s as [|c s IH]; [reflexivity|].
  rewrite contains_char_cons. intros H.
  apply orb_false_iff in H as [E H]. simpl. rewrite E, (IH H). reflexivity.
Qed.

Lemma before_first_slash_head (sep : ascii) (rest : string) :
  Ascii.eqb "/"%char sep = false ->
  before_first sep (String "/"%char rest) =
  String "/"%char (before_first sep rest).
Proof.
  intros E.
  change (before_first sep (String "/"%char rest))
    with (if Ascii.eqb "/"%char sep then EmptyString
          else String "/"%char (before_first sep rest)).
  rewrite E. reflexivity.
Qed.

End PyStrFacts.

(** ** extract_href *)

Lemma strip_step_stripped (strip_params : bool) (href : string) :
  strip_step strip_params href = Ok (stripped strip_params href).
Proof.
  unfold strip_step, stripped.
  destruct strip_params; simpl; [|reflexivity].
  destruct (keeps_params href); simpl; [reflexivity|].
  apply PyStrFacts.item0_split.
Qed.

Lemma extract_href_present (name : string) (attrs : list (string * string))
    (contents : list PageElement) (domain scheme href : string)
    (strip_params : bool) :
  Bs4.lookup "href" attrs = Some href ->
  extract_href (Tag name attrs contents) domain scheme strip_params =
  reconstitute domain scheme (stripped strip_params href).
Proof.
  intros H. unfold extract_href. simpl. rewrite H.
  rewrite strip_step_stripped. reflexivity.
Qed.

Lemma keeps_params_contains (href : string) :
  keeps_params href = PyStr.contains "youtube.com/watch" href.
Proof. unfold keeps_params. simpl. apply orb_false_r. Qed.

(** C2 (the code departs from the claim).  An anchor without an href
    attribute makes [a['href']] raise [KeyError]; the handler of
    [extract_href] catches [AttributeError] only, so the function raises
    [KeyError] instead of returning the empty string. *)
Theorem extract_href_missing_href_raises
    (name : string) (attrs : list (string * string))
    (contents : list PageElement) (domain scheme : string)
    (strip_params : bool) :
  Bs4.lookup "href" attrs = None ->
  extract_href (Tag name attrs contents) domain scheme strip_params =
  Raise (KeyError "href").
Proof.
  intros H. unfold extract_href. simpl. rewrite H. reflexivity.
Qed.

Lemma extract_href_missing_href_raises_witness :
  Bs4.lookup "href" [("name", "top")] = None /\
  extract_href Web.named_anchor "pub.medium.com" "https" true =
  Raise (KeyError "href").
Proof.
  split; [reflexivity|].
  apply (extract_href_missing_href_raises "a" [("name", "top")]
           [NavigableString "Top"] "pub.medium.com" "https" true).
  reflexivity.
Defined.

(** C4 (counterexample).  With the default arguments the query string of
    a relative href is stripped before the domain is prepended:
    [/a?b=1] on [x.com] gives [https://x.com/a]. *)
Lemma relative_href_query_is_stripped :
  extract_href (Tag "a" [("href", "/a?b=1")] []) "x.com" "https" true =
  Ok "https://x.com/a"
  /\ (relative_href_kept_whole -> False).
Proof.
  split; [reflexivity|].
  intros H.
  specialize (H "a" [("href", "/a?b=1")] [] "x.com" "/a?b=1" "a?b=1"
                eq_refl eq_refl).
  vm_compute in H. discriminate H.
Qed.

(** C4 (amended).  For an href that begins with '/', [extract_href] with
    the default arguments returns scheme, "://", domain and the href after
    parameter stripping: the href up to its first '?' unless it contains
    [youtube.com/watch]; the href itself is kept whole when it has no '?'
    or is on the allow-list. *)
Theorem extract_href_relative
    (name : string) (attrs : list (string * string))
    (contents : list PageElement) (domain href rest : string) :
  Bs4.lookup "href" attrs = Some href ->
  href = String "/"%char rest ->
  extract_href (Tag name attrs contents) domain "https" true =
  Ok ("https" ++ "://" ++ domain ++
      (if keeps_params href then href
       else PyStr.before_first "?"%char href))%string
  /\ (PyStr.contains "?" href = false \/ keeps_params href = true ->
      extract_href (Tag name attrs contents) domain "https" true =
      Ok ("https" ++ "://" ++ domain ++ href)%string).
Proof.
  intros Hl ->.
  assert (E : extract_href (Tag name attrs contents) domain "https" true =
              Ok ("https" ++ "://" ++ domain ++
                  (if keeps_params (String "/"%char rest)
                   then String "/"%char rest
                   else PyStr.before_first "?"%char (String "/"%char rest)))%string).
  { rewrite (extract_href_present _ _ _ _ _ _ _ Hl).
    unfold stripped. simpl andb.
    destruct (keeps_params (String "/"%char rest)); simpl negb; cbv iota.
    - reflexivity.
    - rewrite PyStrFacts.before_first_slash_head by reflexivity.
      reflexivity. }
  split; [exact E|].
  intros [Hq|Hk]; rewrite E.
  - rewrite (PyStrFacts.before_first_id _ _ Hq).
    destruct (keeps_params _); reflexivity.
  - rewrite Hk. reflexivity.
Qed.

Lemma extract_href_relative_witness :
  extract_href (Tag "a" [("href", "/about?src=x")] [NavigableString "About"])
    "pub.medium.com" "https" true = Ok "https://pub.medium.com/about".
Proof.
  exact (proj1 (extract_href_relative "a" [("href", "/about?src=x")]
                  [NavigableString "About"] "pub.medium.com"
                  "/about?src=x" "about?src=x" eq_refl eq_refl)).
Defined.

(** C5.  With parameter stripping enabled, lines 70-75 of [extract_href]
    leave an href that contains [youtube.com/watch] as it is, query
    parameters included, and cut every other href at its first '?': what
    is kept is the part before it, which holds no '?', and what is removed
    is the rest, empty or beginning with '?'.  The value [extract_href]
    then works with, for an anchor carrying that href, is this stripped
    href. *)
Theorem extract_href_param_stripping (href : string) :
  strip_step true href =
    Ok (if keeps_params href then href else PyStr.before_first "?"%char href)
  /\ keeps_params href = PyStr.contains "youtube.com/watch" href
  /\ href = (PyStr.before_first "?"%char href ++
             PyStr.from_first "?"%char href)%string
  /\ PyStr.contains "?" (PyStr.before_first "?"%char href) = false
  /\ (PyStr.from_first "?"%char href = EmptyString \/
      exists rest, PyStr.from_first "?"%char href = String "?"%char rest)
  /\ forall (name : string) (attrs : list (string * string))
            (contents : list PageElement) (domain scheme : string),
       extract_href (Tag name (("href", href) :: attrs) contents)
         domain scheme true =
       reconstitute domain scheme
         (if keeps_params href then href
          else PyStr.before_first "?"%char href).
Proof.
  assert (S : stripped true href =
              if keeps_params href then href
              else PyStr.before_first "?"%char href).
  { unfold stripped. simpl. destruct (keeps_params href); reflexivity. }
  repeat split.
  - rewrite strip_step_stripped, S. reflexivity.
  - apply keeps_params_contains.
  - apply PyStrFacts.before_from.
  - apply PyStrFacts.before_first_clean.
  - apply PyStrFacts.from_first_shape.
  - intros. rewrite <- S. apply extract_href_present. reflexivity.
Qed.

(** ** The Link class *)

Lemma last_app_single (pre : list string) (x d : string) :
  last (pre ++ [x]) d = x.
Proof. apply last_last. Qed.

(** C6.  After [Link.__init__], whatever the arguments, [final_url] is
    [url] when [redirect_chain] is empty and the last element of
    [redirect_chain] otherwise; the chain is the given one, or empty when
    none or an empty one was given. *)
Theorem Link_final_url (u a : string) (status : Z)
    (chain : option (list string)) :
  let l := Link_init u a status chain in
  url l = u
  /\ redirect_chain l = match chain with Some c => c | None => [] end
  /\ final_url l = last (redirect_chain l) (url l)
  /\ ((redirect_chain l = [] /\ final_url l = url l) \/
      (exists pre x, redirect_chain l = pre ++ [x] /\ final_url l = x)).
Proof.
  unfold Link_init. cbn zeta.
  destruct chain as [[|x c]|]; simpl given_or_empty; cbn [url redirect_chain final_url].
  - repeat split; left; split; reflexivity.
  - destruct (exists_last (l := x :: c)) as (pre & y & E); [discriminate|].
    rewrite E.
    assert (N : Nat.eqb (length (pre ++ [y])) 0 = false).
    { rewrite length_app. simpl. apply Nat.eqb_neq. lia. }
    rewrite N, !last_app_single.
    repeat split. right. exists pre, y. split; reflexivity.
  - repeat split; left; split; reflexivity.
Qed.

(** ** check_medium_article_links *)

(** C10.  When the fetched page has no article block, [soup.find] gives
    [None] and [check_medium_article_links] raises [AttributeError] after
    its single request; it does not return the empty list. *)
Theorem check_medium_article_links_no_article
    (requests_get : string -> Result Response)
    (BeautifulSoup : string -> PageElement) (fqdn : string -> string)
    (u : string) (data : Response) (w : World) :
  requests_get u = Ok data ->
  Bs4.find "article" (BeautifulSoup (Resp.text data)) = None ->
  check_medium_article_links requests_get BeautifulSoup fqdn u w =
    (Raise (AttributeError "'NoneType' object has no attribute 'find_all'"),
     mkWorld (S (clock w)) (requested w ++ [u]))
  /\ fst (check_medium_article_links requests_get BeautifulSoup fqdn u w)
     <> Ok [].
Proof.
  intros Hget Hfind.
  assert (E : check_medium_article_links requests_get BeautifulSoup fqdn u w =
    (Raise (AttributeError "'NoneType' object has no attribute 'find_all'"),
     mkWorld (S (clock w)) (requested w ++ [u]))).
  { unfold check_medium_article_links, bind, make_request.
    rewrite Hget, Hfind. reflexivity. }
  split; [exact E|]. rewrite E. discriminate.
Qed.

Lemma check_medium_article_links_no_article_witness :
  check_medium_article_links Web.get Web.parse Web.host
    "https://pub.medium.com/plain" Web.start =
  (Raise (AttributeError "'NoneType' object has no attribute 'find_all'"),
   mkWorld 1 ["https://pub.medium.com/plain"]).
Proof.
  exact (proj1 (check_medium_article_links_no_article Web.get Web.parse
                  Web.host "https://pub.medium.com/plain"
                  (Web.page200 "https://pub.medium.com/plain" Web.plain_text)
                  Web.start eq_refl eq_refl)).
Defined.

(** ** get_medium_article_links *)

Section ArticleLister.

Variable requests_get : string -> Result Response.
Variable BeautifulSoup : string -> PageElement.

Lemma last_char_defined (u : string) :
  u <> EmptyString -> exists c, PyStr.last_char u = Ok c.
Proof.
  induction u as [|c u IH]; [congruence|]. intros _.
  destruct u as [|c' u]; [exists c; reflexivity|].
  destruct IH as [x Hx]; [discriminate|].
  exists x. exact Hx.
Qed.

Lemma trim_slash_trimmed (u : string) :
  u <> EmptyString -> trim_slash u = Ok (trimmed u).
Proof.
  intros H. destruct (last_char_defined u H) as [c Hc].
  unfold trim_slash, trimmed, ends_with_slash. rewrite Hc. simpl.
  destruct (Ascii.eqb c "/"%char); reflexivity.
Qed.

Lemma remove_tracking_before (s : string) :
  remove_tracking s = Ok (PyStr.before_first "?"%char s).
Proof.
  unfold remove_tracking.
  destruct (PyStr.contains "?" s) eqn:E.
  - apply PyStrFacts.item0_split.
  - rewrite (PyStrFacts.before_first_id _ _ E). reflexivity.
Qed.

Lemma article_step_listed (data : Response) (article : PageElement)
    (links : list string) (o : option string) :
  Resp.url data <> EmptyString ->
  first_href article = Ok o ->
  article_step data article links =
  Ok (links ++ listed (trimmed (Resp.url data)) [o]).
Proof.
  intros Hu Hf. unfold article_step, first_href in *.
  destruct (Bs4.find "a" article) as [link|].
  - rewrite (trim_slash_trimmed _ Hu). simpl.
    destruct (Bs4.getitem link "href") as [h|e]; simpl in Hf; [|discriminate].
    injection Hf as <-. simpl. rewrite remove_tracking_before. reflexivity.
  - injection Hf as <-. simpl. rewrite app_nil_r. reflexivity.
Qed.

Lemma article_loop_listed (data : Response) (articles : list PageElement)
    (hs : list (option string)) :
  Resp.url data <> EmptyString ->
  Forall2 (fun article o => first_href article = Ok o) articles hs ->
  forall links,
    article_loop data articles links =
    Ok (links ++ listed (trimmed (Resp.url data)) hs).
Proof.
  intros Hu HF. induction HF as [|article o articles hs H _ IH]; intros links.
  - simpl. rewrite app_nil_r. reflexivity.
  - cbn [article_loop]. rewrite (article_step_listed _ _ _ _ Hu H).
    cbn [result_bind]. rewrite IH, <- app_assoc.
    unfold listed. simpl. rewrite app_nil_r. reflexivity.
Qed.

Lemma sole_href_first (article : PageElement) (h : string) :
  sole_href article = Some h -> first_href article = Ok (Some h).
Proof.
  unfold sole_href, first_href, Bs4.find.
  destruct (Bs4.find_all "a" article) as [|link [|]]; try discriminate.
  destruct (Bs4.getitem link "href"); [|discriminate].
  intros [= ->]. reflexivity.
Qed.

Lemma sole_hrefs_first (articles : list PageElement) (hrefs : list string) :
  map sole_href articles = map Some hrefs ->
  Forall2 (fun article o => first_href article = Ok o)
          articles (map Some hrefs).
Proof.
  revert hrefs. induction articles as [|a articles IH]; intros [|h hrefs] E;
    try discriminate; simpl; constructor.
  - apply sole_href_first. simpl in E. congruence.
  - apply IH. simpl in E. congruence.
Qed.

Lemma listed_all (base : string) (hrefs : list string) :
  listed base (map Some hrefs) = map (article_url base) hrefs.
Proof.
  unfold listed. induction hrefs as [|h hrefs IH]; simpl; [|rewrite IH];
    reflexivity.
Qed.

Lemma get_medium_article_links_run (u : string) (data : Response) (w : World) :
  requests_get u = Ok data ->
  get_medium_article_links requests_get BeautifulSoup u w =
  (article_loop data
     (Bs4.find_all "article" (BeautifulSoup (Resp.text data))) [],
   mkWorld (S (clock w)) (requested w ++ [u])).
Proof.
  intros H. unfold get_medium_article_links, bind, make_request, lift.
  rewrite H. reflexivity.
Qed.

(** What the lister returns on a fetched profile page whose blocks are
    well formed, a hyperlink being an anchor element that carries an href:
    with no article block the result is the empty list; with N blocks that
    each contain exactly one anchor, carrying an href, the result is, block
    by block in document order, the resolved page URL without its trailing
    slash followed by the href, cut at the first '?' -- N URLs, none
    holding a '?', repeated ones kept; and when the first anchor of every
    block that has one carries an href, a block without an anchor adds
    nothing. *)
Theorem get_medium_article_links_lists
    (u : string) (data : Response) (w : World) :
  requests_get u = Ok data ->
  let articles := Bs4.find_all "article" (BeautifulSoup (Resp.text data)) in
  let w' := mkWorld (S (clock w)) (requested w ++ [u]) in
  let base := trimmed (Resp.url data) in
  (articles = [] ->
   get_medium_article_links requests_get BeautifulSoup u w = (Ok [], w'))
  /\ (forall hrefs : list string,
        Resp.url data <> EmptyString ->
        map sole_href articles = map Some hrefs ->
        get_medium_article_links requests_get BeautifulSoup u w =
          (Ok (map (fun h => PyStr.before_first "?"%char (base ++ h)%string)
                   hrefs), w')
        /\ length hrefs = length articles
        /\ Forall (fun x => PyStr.contains "?" x = false)
                  (map (fun h => PyStr.before_first "?"%char (base ++ h)%string)
                       hrefs))
  /\ (forall hs : list (option string),
        Resp.url data <> EmptyString ->
        Forall2 (fun article o => first_href article = Ok o) articles hs ->
        get_medium_article_links requests_get BeautifulSoup u w =
          (Ok (listed base hs), w')).
Proof.
  intros Hget articles w' base.
  rewrite (get_medium_article_links_run u data w Hget).
  fold articles w'.
  split; [|split].
  - intros ->. reflexivity.
  - intros hrefs Hu Hs. split; [|split].
    + rewrite (article_loop_listed data articles (map Some hrefs) Hu
                 (sole_hrefs_first _ _ Hs)).
      simpl. rewrite listed_all. reflexivity.
    + apply (f_equal (@length _)) in Hs. rewrite !length_map in Hs.
      symmetry. exact Hs.
    + apply Forall_forall. intros x Hx. apply in_map_iff in Hx as (h & <- & _).
      apply PyStrFacts.before_first_clean.
  - intros hs Hu HF.
    rewrite (article_loop_listed data articles hs Hu HF). reflexivity.
Qed.

End ArticleLister.

Lemma get_medium_article_links_lists_witness :
  get_medium_article_links Web.get Web.parse "https://medium.com/@pub"
    Web.start =
  (Ok ["https://pub.medium.com/post-1"; "https://pub.medium.com/post-2"],
   mkWorld 1 ["https://medium.com/@pub"]).
Proof.
  exact (proj1
           (proj1 (proj2
              (get_medium_article_links_lists Web.get Web.parse
                 "https://medium.com/@pub"
                 (mkResponse "https://pub.medium.com/" Web.profile_text 200
                    [mkResponse "https://medium.com/@pub" "" 301 []])
                 Web.start eq_refl))
              ["/post-1?source=feed"; "/post-2"]
              ltac:(discriminate) eq_refl)).
Defined.

(** ** Link.create_link and the link loop *)

Lemma collect_redirects_from (history : list Response) (acc : list string) :
  fold_left (fun redirects r => redirects ++ [Resp.url r]) history acc =
  acc ++ map Resp.url history.
Proof.
  revert acc. induction history as [|r history IH]; intros acc; simpl.
  - rewrite app_nil_r. reflexivity.
  - rewrite IH, <- app_assoc. reflexivity.
Qed.

Lemma collect_redirects_map (history : list Response) :
  collect_redirects history = map Resp.url history.
Proof. apply (collect_redirects_from history []). Qed.

(** A response with a status in 400..599 is falsy, and [create_link]
    returns [None] for it. *)
Lemma create_link_error_status
    (requests_get : string -> Result Response)
    (u a : string) (data : Response) (w : World) :
  requests_get u = Ok data ->
  (400 <= Resp.status_code data < 600)%Z ->
  create_link requests_get u a w =
  (Ok None, mkWorld (S (clock w)) (requested w ++ [u])).
Proof.
  intros Hget [Hlo Hhi]. unfold create_link, bind, make_request.
  rewrite Hget. unfold Resp.truthy, Resp.ok.
  apply Z.leb_le in Hlo. apply Z.ltb_lt in Hhi. rewrite Hlo, Hhi.
  reflexivity.
Qed.

(** A request that raises makes [create_link] raise the same exception. *)
Lemma create_link_fetch_failure
    (requests_get : string -> Result Response)
    (u a : string) (e : exception) (w : World) :
  requests_get u = Raise e ->
  create_link requests_get u a w =
  (Raise e, mkWorld (S (clock w)) (requested w ++ [u])).
Proof.
  intros Hget. unfold create_link, bind, make_request.
  rewrite Hget. reflexivity.
Qed.

(** C1 (the code departs from the claim).  On the first article of the
    small web, whose third link answers 404, [create_link] returns [None]
    for that link -- the 404 response is falsy -- and the Link Checker
    returns the two other links only; the report of the whole profile has
    two records of two links each, all with status 200. *)
Theorem not_found_link_is_left_out :
  Web.get "https://example.com/gone" =
    Ok (mkResponse "https://example.com/gone" "not found" 404 [])
  /\ fst (create_link Web.get "https://example.com/gone" "Gone" Web.start) =
     Ok None
  /\ fst (check_medium_article_links Web.get Web.parse Web.host
            "https://pub.medium.com/post-1" Web.start) =
     Ok [ mkLink "https://example.com/a" "A" 200 [] "https://example.com/a";
          mkLink "https://pub.medium.com/about" "About" 200 []
                 "https://pub.medium.com/about" ]
  /\ fst (check_medium_links Web.get Web.parse Web.host Web.tally
            "https://medium.com/@pub" Web.start) =
     Ok [ report_record "https://pub.medium.com/post-1" "|||||"
            [ mkLink "https://example.com/a" "A" 200 []
                     "https://example.com/a";
              mkLink "https://pub.medium.com/about" "About" 200 []
                     "https://pub.medium.com/about" ];
          report_record "https://pub.medium.com/post-2" "|||||||||"
            [ mkLink "https://www.youtube.com/watch?v=xyz" "Video" 200 []
                     "https://www.youtube.com/watch?v=xyz";
              mkLink "http://old.example.com/x" "Old" 200
                     ["http://old.example.com/x"]
                     "http://old.example.com/x" ] ].
Proof. repeat split; vm_compute; reflexivity. Qed.

(** C3 (the code departs from the claim).  An href that is empty after
    stripping makes [extract_href] raise [IndexError], and a request that
    fails raises out of [create_link]; either exception leaves
    [check_medium_article_links], and the links that follow in the article
    are not returned. *)
Theorem link_errors_leave_the_checker :
  extract_href (Web.a_href "?page=2" "Next") "pub.medium.com" "https" true =
    Raise (IndexError "string index out of range")
  /\ extract_href (Web.a_href "" "Empty") "pub.medium.com" "https" true =
       Raise (IndexError "string index out of range")
  /\ fst (check_medium_article_links Web.get Web.parse Web.host
            "https://pub.medium.com/post-5" Web.start) =
       Raise (IndexError "string index out of range")
  /\ Web.get "https://no-such-host.invalid/" =
       Raise (RequestException "ConnectionError")
  /\ fst (check_medium_article_links Web.get Web.parse Web.host
            "https://pub.medium.com/post-6" Web.start) =
       Raise (RequestException "ConnectionError").
Proof. repeat split; vm_compute; reflexivity. Qed.

(** C8 (the code departs from the claim).  The request for
    [https://medium.com/@pub/post-3] is redirected to
    [https://pub.medium.com/post-3]; the relative href [/about] of the
    article is made absolute with the domain of the requested URL,
    [medium.com], not with the domain of the resolved one. *)
Theorem domain_is_taken_from_requested_url :
  Web.get "https://medium.com/@pub/post-3" =
    Ok (mkResponse "https://pub.medium.com/post-3" Web.post3_text 200
          [mkResponse "https://medium.com/@pub/post-3" "" 301 []])
  /\ Web.host "https://medium.com/@pub/post-3" = "medium.com"
  /\ Web.host "https://pub.medium.com/post-3" = "pub.medium.com"
  /\ fst (check_medium_article_links Web.get Web.parse Web.host
            "https://medium.com/@pub/post-3" Web.start) =
     Ok [ mkLink "https://medium.com/about" "About" 200 []
                 "https://medium.com/about" ].
Proof. repeat split; vm_compute; reflexivity. Qed.

(** ** What has been requested when a check returns *)

Section Requests.

Variable requests_get : string -> Result Response.
Variable BeautifulSoup : string -> PageElement.
Variable fqdn : string -> string.

Lemma create_link_requested (u a : string) (w w' : World) (o : option Link) :
  create_link requests_get u a w = (Ok o, w') ->
  w' = mkWorld (S (clock w)) (requested w ++ [u]) /\
  (forall l, o = Some l -> url l = u).
Proof.
  unfold create_link, bind, make_request.
  destruct (requests_get u) as [data|e]; [|discriminate].
  destruct (negb (Resp.truthy data)); unfold ret; intros [= <- <-];
    (split; [reflexivity|]); intros l; [discriminate|].
  intros [= <-]. reflexivity.
Qed.

Lemma link_loop_requested (domain : string) (anchors : list PageElement) :
  forall (links out : list Link) (w w' : World),
    link_loop requests_get domain anchors links w = (Ok out, w') ->
    (forall l, In l links -> In (url l) (requested w)) ->
    forall l, In l out -> In (url l) (requested w').
Proof.
  induction anchors as [|a anchors IH]; intros links out w w' H Hin.
  - injection H as <- <-. exact Hin.
  - cbn [link_loop] in H. unfold bind at 1, lift in H.
    destruct (extract_href a domain "https" true) as [u|e]; [|discriminate].
    unfold bind at 1 in H.
    destruct (create_link requests_get u (Bs4.get_text_strip a) w)
      as [[o|e] w1] eqn:Hc; [|discriminate].
    destruct (create_link_requested _ _ _ _ _ Hc) as [-> Hu].
    destruct o as [l0|]; apply (IH _ _ _ _ H); intros l Hl; simpl;
      apply in_or_app.
    + apply in_app_or in Hl as [Hl|[<-|[]]].
      * left. apply Hin, Hl.
      * right. left. symmetry. apply Hu. reflexivity.
    + left. apply Hin, Hl.
Qed.

(** When the check of an article returns, the request for every Link it
    returns has been made. *)
Lemma check_medium_article_links_requested (u : string) (w w' : World)
    (out : list Link) :
  check_medium_article_links requests_get BeautifulSoup fqdn u w =
    (Ok out, w') ->
  forall l, In l out -> In (url l) (requested w').
Proof.
  unfold check_medium_article_links, bind, make_request.
  destruct (requests_get u) as [data|e]; [|discriminate].
  destruct (Bs4.find "article" (BeautifulSoup (Resp.text data))) as [art|];
    [|discriminate].
  intros H. apply (link_loop_requested _ _ _ _ _ _ H). intros l [].
Qed.

Lemma checked_in_order_requested (links : list string) (w w' : World)
    (trace : list (string * list Link * World)) :
  checked_in_order requests_get BeautifulSoup fqdn links w trace w' ->
  Forall (fun entry =>
            forall l, In l (snd (fst entry)) ->
                      In (url l) (requested (snd entry))) trace.
Proof.
  induction 1 as [|link rest w w' w'' article_links trace Hc _ IH];
    constructor; [|exact IH].
  simpl. apply (check_medium_article_links_requested _ _ _ _ Hc).
Qed.

End Requests.

(** ** check_medium_links *)

Section ReportAssembler.

Variable requests_get : string -> Result Response.
Variable BeautifulSoup : string -> PageElement.
Variable fqdn : string -> string.
Variable str_time : nat -> string.

Lemma report_loop_trace (links : list string) (w w' : World)
    (trace : list (string * list Link * World)) :
  checked_in_order requests_get BeautifulSoup fqdn links w trace w' ->
  forall output,
    report_loop requests_get BeautifulSoup fqdn str_time links output w =
    (Ok (output ++ map (record_of str_time) trace), w').
Proof.
  induction 1 as [w|link rest w w' w'' article_links trace Hc _ IH];
    intros output.
  - simpl. rewrite app_nil_r. reflexivity.
  - cbn [report_loop]. unfold bind at 1. rewrite Hc.
    unfold bind at 1, time_time. rewrite IH, <- app_assoc. reflexivity.
Qed.

Lemma checked_in_order_urls (links : list string) (w w' : World)
    (trace : list (string * list Link * World)) :
  checked_in_order requests_get BeautifulSoup fqdn links w trace w' ->
  map (fun entry => fst (fst entry)) trace = links.
Proof.
  induction 1 as [|? ? ? ? ? ? ? _ _ IH]; simpl; [|rewrite IH]; reflexivity.
Qed.

Lemma to_dict_fields (l : Link) : keys (to_dict l) = link_fields.
Proof. reflexivity. Qed.

(** C9 (amended).  For every run in which the listing gives [links] and
    the check of each article in turn returns, [check_medium_links]
    returns one record per article URL in the order of [links]; a record
    holds the article URL, the string of the clock read in the world in
    which that article's check returned -- every Link of the article has
    been requested by then -- and the article's Links, each as the dict
    that maps url, anchor, http_status, redirect_chain and final_url, in
    this order and no other key, to the Link's own value of that field. *)
Theorem check_medium_links_report
    (profile_url : string) (links : list string) (w0 w1 w2 : World)
    (trace : list (string * list Link * World)) :
  get_medium_article_links requests_get BeautifulSoup profile_url w0 =
    (Ok links, w1) ->
  checked_in_order requests_get BeautifulSoup fqdn links w1 trace w2 ->
  let output :=
    map (fun entry =>
           PDict [ ("url", PStr (fst (fst entry)));
                   ("timestamp", PStr (str_time (clock (snd entry))));
                   ("links",
                    PList
                      (map (fun l =>
                              PDict
                                [ ("url", PStr (url l));
                                  ("anchor", PStr (anchor l));
                                  ("http_status", PInt (http_status l));
                                  ("redirect_chain",
                                   PList (map PStr (redirect_chain l)));
                                  ("final_url", PStr (final_url l)) ])
                           (snd (fst entry)))) ]) trace in
  check_medium_links requests_get BeautifulSoup fqdn str_time profile_url w0 =
    (Ok output, w2)
  /\ length output = length links
  /\ map (fun entry => fst (fst entry)) trace = links
  /\ Forall (fun entry =>
               Forall (fun l =>
                         to_dict l =
                           [ ("url", PStr (url l));
                             ("anchor", PStr (anchor l));
                             ("http_status", PInt (http_status l));
                             ("redirect_chain",
                              PList (map PStr (redirect_chain l)));
                             ("final_url", PStr (final_url l)) ]
                         /\ keys (to_dict l) = link_fields)
                      (snd (fst entry))) trace
  /\ Forall (fun entry =>
               forall l, In l (snd (fst entry)) ->
                         In (url l) (requested (snd entry))) trace.
Proof.
  intros Hl Hc output. split; [|split; [|split; [|split]]];
    [| | | |exact (checked_in_order_requested _ _ _ _ _ _ _ Hc)].
  - unfold check_medium_links, bind. rewrite Hl.
    rewrite (report_loop_trace _ _ _ _ Hc []). simpl. f_equal. f_equal.
    unfold output. apply map_ext. intros [[link article_links] w].
    reflexivity.
  - unfold output. rewrite length_map.
    rewrite <- (checked_in_order_urls _ _ _ _ Hc), length_map.
    reflexivity.
  - exact (checked_in_order_urls _ _ _ _ Hc).
  - apply Forall_forall. intros entry _. apply Forall_forall. intros l _.
    split; [reflexivity|apply to_dict_fields].
Qed.

End ReportAssembler.

Lemma check_medium_links_report_witness :
  check_medium_links Web.get Web.parse Web.host Web.tally
    "https://medium.com/@pub" Web.start =
  (Ok [ report_record "https://pub.medium.com/post-1" "|||||" Web.links1;
        report_record "https://pub.medium.com/post-2" "|||||||||" Web.links2 ],
   Web.post2_world).
Proof.
  refine (proj1
            (check_medium_links_report Web.get Web.parse Web.host Web.tally
               "https://medium.com/@pub" Web.articles
               Web.start Web.listed_world Web.post2_world
               [ ("https://pub.medium.com/post-1", Web.links1, Web.post1_world);
                 ("https://pub.medium.com/post-2", Web.links2, Web.post2_world) ]
               _ _)).
  - vm_compute. reflexivity.
  - apply checked_cons with (w' := Web.post1_world);
      [vm_compute; reflexivity|].
    apply checked_cons with (w' := Web.post2_world);
      [vm_compute; reflexivity|].
    apply checked_nil.
Defined.

(** * Further properties of the module *)

(** ** More facts about the string operations *)

Module PyStrMore.
Import PyStr.

Lemma contains_cons_true (x : string) (c : ascii) (s : string) :
  contains x s = true -> contains x (String c s) = true.
Proof.
  intros H.
  change (contains x (String c s))
    with (if String.prefix x (String c s) then true else contains x s).
  rewrite H. destruct (String.prefix x (String c s)); reflexivity.
Qed.

Lemma contains_app_right (x a b : string) :
  contains x b = true -> contains x (a ++ b)%string = true.
Proof.
  intros H. induction a as [|c a IH]; [exact H|].
  simpl String.append. apply contains_cons_true, IH.
Qed.

Lemma contains_char_app (c : ascii) (a b : string) :
  contains (String c EmptyString) (a ++ b)%string =
  contains (String c EmptyString) a || contains (String c EmptyString) b.
Proof.
  induction a as [|x a IH].
  - simpl String.append. destruct (contains (String c EmptyString) b);
      reflexivity.
  - simpl String.append. rewrite !PyStrFacts.contains_char_cons, IH.
    apply orb_assoc.
Qed.

Lemma before_first_app_left (c : ascii) (a b : string) :
  contains (String c EmptyString) a = true ->
  before_first c (a ++ b)%string = before_first c a.
Proof.
  induction a as [|x a IH]; [discriminate|].
  rewrite PyStrFacts.contains_char_cons. simpl.
  destruct (Ascii.eqb x c); [reflexivity|].
  simpl. intros H. rewrite (IH H). reflexivity.
Qed.

Lemma before_first_empty (c : ascii) (s : string) :
  is_empty (before_first c s) = is_empty s || begins_with c s.
Proof.
  destruct s as [|x s]; [reflexivity|]. simpl.
  destruct (Ascii.eqb x c); reflexivity.
Qed.

Lemma last_char_snoc (u : string) (c : ascii) :
  last_char (u ++ String c EmptyString)%string = Ok c.
Proof.
  induction u as [|x u IH]; [reflexivity|].
  simpl String.append. cbn [last_char].
  destruct (u ++ String c EmptyString)%string eqn:E; [|exact IH].
  destruct u; discriminate.
Qed.

Lemma drop_last_snoc (u : string) (c : ascii) :
  drop_last (u ++ String c EmptyString)%string = u.
Proof.
  induction u as [|x u IH]; [reflexivity|].
  simpl String.append. cbn [drop_last].
  destruct (u ++ String c EmptyString)%string eqn:E.
  - destruct u; discriminate.
  - rewrite IH. reflexivity.
Qed.

(** A non-empty string is its [drop_last] followed by its last
    character. *)
Lemma snoc_last (u : string) (c : ascii) :
  last_char u = Ok c -> u = (drop_last u ++ String c EmptyString)%string.
Proof.
  induction u as [|x u IH]; [discriminate|].
  destruct u as [|y u].
  - intros [= ->]. reflexivity.
  - intros H. change (drop_last (String x (String y u)))
      with (String x (drop_last (String y u))).
    simpl String.append. f_equal. apply IH. exact H.
Qed.

Lemma append_not_empty_right (a : string) (c : ascii) (b : string) :
  (a ++ String c b)%string <> EmptyString.
Proof. destruct a; discriminate. Qed.

End PyStrMore.

(** ** extract_href, further *)

Lemma reconstitute_not_empty (domain scheme x r : string) :
  reconstitute domain scheme x = Ok r -> r <> EmptyString.
Proof.
  unfold reconstitute. destruct x as [|c x]; [discriminate|]. simpl.
  destruct (Ascii.eqb c "/"%char); intros [= <-]; [|discriminate].
  apply PyStrMore.append_not_empty_right.
Qed.

Lemma stripped_empty (strip_params : bool) (href : string) :
  PyStr.is_empty (stripped strip_params href) =
  PyStr.is_empty href ||
  (strip_params && negb (keeps_params href) && begins_with "?"%char href).
Proof.
  unfold stripped.
  destruct strip_params; simpl; [|rewrite orb_false_r; reflexivity].
  destruct (keeps_params href); simpl.
  - rewrite orb_false_r. reflexivity.
  - apply PyStrMore.before_first_empty.
Qed.

(** X1.  [extract_href] never returns the empty string: whenever it
    returns, the URL has at least one character. *)
Theorem extract_href_never_empty (a : PageElement)
    (domain scheme : string) (strip_params : bool) (r : string) :
  extract_href a domain scheme strip_params = Ok r -> r <> EmptyString.
Proof.
  destruct a as [s|name attrs contents].
  - discriminate.
  - destruct (Bs4.lookup "href" attrs) as [h|] eqn:E.
    + rewrite (extract_href_present _ _ _ _ _ _ _ E).
      apply reconstitute_not_empty.
    + unfold extract_href. simpl. rewrite E. discriminate.
Qed.

Lemma extract_href_never_empty_witness :
  extract_href (Web.a_href "/about" "About") "pub.medium.com" "https" true =
    Ok "https://pub.medium.com/about"
  /\ "https://pub.medium.com/about" <> EmptyString.
Proof.
  split; [reflexivity|].
  exact (extract_href_never_empty (Web.a_href "/about" "About")
           "pub.medium.com" "https" true "https://pub.medium.com/about"
           eq_refl).
Defined.

(** X2.  For an anchor that carries an href, [extract_href] raises
    [IndexError] exactly when the href is empty, or stripping is on, the
    href is not on the allow-list and it begins with '?'; in every other
    case it returns a URL. *)
Theorem extract_href_index_error
    (name : string) (attrs : list (string * string))
    (contents : list PageElement) (domain scheme href : string)
    (strip_params : bool) :
  Bs4.lookup "href" attrs = Some href ->
  if PyStr.is_empty href ||
     (strip_params && negb (keeps_params href) && begins_with "?"%char href)
  then extract_href (Tag name attrs contents) domain scheme strip_params =
       Raise (IndexError "string index out of range")
  else exists r,
       extract_href (Tag name attrs contents) domain scheme strip_params =
       Ok r.
Proof.
  intros H. rewrite (extract_href_present _ _ _ _ _ _ _ H).
  rewrite <- stripped_empty. unfold reconstitute.
  destruct (stripped strip_params href) as [|c x]; simpl; [reflexivity|].
  destruct (Ascii.eqb c "/"%char); eauto.
Qed.

Lemma extract_href_index_error_witness :
  extract_href (Web.a_href "?page=2" "Next") "pub.medium.com" "https" true =
    Raise (IndexError "string index out of range")
  /\ exists r,
       extract_href (Web.a_href "?page=2" "Next") "pub.medium.com" "https"
         false = Ok r.
Proof.
  split.
  - exact (extract_href_index_error "a" [("href", "?page=2")]
             [NavigableString "Next"] "pub.medium.com" "https" "?page=2"
             true eq_refl).
  - exact (extract_href_index_error "a" [("href", "?page=2")]
             [NavigableString "Next"] "pub.medium.com" "https" "?page=2"
             false eq_refl).
Defined.

(** X3.  An href whose first character is neither '/' nor '?' is never
    given the domain: [extract_href] returns it cut at its first '?' when
    stripping is on and it is not on the allow-list, and whole
    otherwise. *)
Theorem extract_href_not_relative
    (name : string) (attrs : list (string * string))
    (contents : list PageElement) (domain scheme href rest : string)
    (c : ascii) (strip_params : bool) :
  Bs4.lookup "href" attrs = Some href ->
  href = String c rest ->
  c <> "/"%char ->
  c <> "?"%char ->
  extract_href (Tag name attrs contents) domain scheme strip_params =
  Ok (if strip_params && negb (keeps_params href)
      then PyStr.before_first "?"%char href
      else href).
Proof.
  intros H -> Hs Hq. rewrite (extract_href_present _ _ _ _ _ _ _ H).
  unfold stripped.
  apply Ascii.eqb_neq in Hs. apply Ascii.eqb_neq in Hq.
  destruct (strip_params && negb (keeps_params (String c rest))).
  - simpl. rewrite Hq. unfold reconstitute. simpl. rewrite Hs. reflexivity.
  - unfold reconstitute. simpl. rewrite Hs. reflexivity.
Qed.

Lemma extract_href_not_relative_witness :
  extract_href (Web.a_href "#notes?x=1" "Notes") "pub.medium.com" "https"
    true = Ok "#notes".
Proof.
  exact (extract_href_not_relative "a" [("href", "#notes?x=1")]
           [NavigableString "Notes"] "pub.medium.com" "https" "#notes?x=1"
           "notes?x=1" "#"%char true eq_refl eq_refl
           ltac:(discriminate) ltac:(discriminate)).
Defined.

Lemma stripped_fixed (href : string) :
  keeps_params href = true \/ PyStr.contains "?" href = false ->
  stripped true href = href.
Proof.
  unfold stripped. simpl. intros [H|H].
  - rewrite H. reflexivity.
  - destruct (keeps_params href); simpl; [reflexivity|].
    apply PyStrFacts.before_first_id, H.
Qed.

Lemma stripped_settled (href : string) :
  keeps_params (stripped true href) = true \/
  PyStr.contains "?" (stripped true href) = false.
Proof.
  unfold stripped. simpl. destruct (keeps_params href) eqn:E; simpl.
  - left. exact E.
  - right. apply PyStrFacts.before_first_clean.
Qed.

Lemma settled_behind_domain (domain x : string) :
  PyStr.contains "?" domain = false ->
  keeps_params x = true \/ PyStr.contains "?" x = false ->
  keeps_params ("https" ++ "://" ++ domain ++ x)%string = true \/
  PyStr.contains "?" ("https" ++ "://" ++ domain ++ x)%string = false.
Proof.
  intros Hd [H|H].
  - left. rewrite keeps_params_contains in *.
    do 3 apply PyStrMore.contains_app_right. exact H.
  - right.
    rewrite !PyStrMore.contains_char_app, Hd, H. reflexivity.
Qed.

(** X4.  Normalising twice changes nothing: when [extract_href], with the
    default scheme and stripping, returns [r] for some anchor and the
    domain holds no '?', it returns [r] again for any anchor whose href
    is [r]. *)
Theorem extract_href_idempotent
    (name name' : string) (attrs attrs' : list (string * string))
    (contents contents' : list PageElement) (domain href r : string) :
  Bs4.lookup "href" attrs = Some href ->
  extract_href (Tag name attrs contents) domain "https" true = Ok r ->
  PyStr.contains "?" domain = false ->
  Bs4.lookup "href" attrs' = Some r ->
  extract_href (Tag name' attrs' contents') domain "https" true = Ok r.
Proof.
  intros H Hr Hd H'.
  rewrite (extract_href_present _ _ _ _ _ _ _ H) in Hr.
  rewrite (extract_href_present _ _ _ _ _ _ _ H').
  pose proof (stripped_settled href) as Hs.
  unfold reconstitute in Hr.
  destruct (stripped true href) as [|c x] eqn:E; [discriminate|].
  cbn [PyStr.first_char result_bind] in Hr.
  destruct (Ascii.eqb c "/"%char) eqn:Ec.
  - apply (f_equal (fun o => match o with Ok v => v | Raise _ => r end))
      in Hr.
    cbv beta iota in Hr. subst r.
    rewrite (stripped_fixed _ (settled_behind_domain _ _ Hd Hs)).
    reflexivity.
  - injection Hr as <-. rewrite (stripped_fixed _ Hs).
    unfold reconstitute. simpl. rewrite Ec. reflexivity.
Qed.

Lemma extract_href_idempotent_witness :
  extract_href (Web.a_href "https://pub.medium.com/about" "Again")
    "pub.medium.com" "https" true = Ok "https://pub.medium.com/about".
Proof.
  exact (extract_href_idempotent "a" "a" [("href", "/about?src=x")]
           [("href", "https://pub.medium.com/about")]
           [NavigableString "About"] [NavigableString "Again"]
           "pub.medium.com" "/about?src=x" "https://pub.medium.com/about"
           eq_refl eq_refl eq_refl eq_refl).
Defined.

(** ** get_medium_article_links, further *)

(** X5.  The base of the article URLs is the resolved page URL less one
    trailing slash: a URL that ends in '/' loses exactly that character, any
    other non-empty URL is kept whole, and the empty URL raises
    [IndexError]. *)
Theorem trim_slash_one_slash :
  trim_slash EmptyString = Raise (IndexError "string index out of range")
  /\ (forall u : string, trim_slash (u ++ "/")%string = Ok u)
  /\ (forall (u : string) (c : ascii),
        c <> "/"%char ->
        trim_slash (u ++ String c EmptyString)%string =
        Ok (u ++ String c EmptyString)%string)
  /\ (forall u base : string,
        trim_slash u = Ok base ->
        u = (base ++ "/")%string \/ u = base).
Proof.
  split; [reflexivity|]. split; [|split].
  - intros u. unfold trim_slash.
    rewrite PyStrMore.last_char_snoc. simpl.
    rewrite PyStrMore.drop_last_snoc. reflexivity.
  - intros u c Hc. unfold trim_slash.
    rewrite PyStrMore.last_char_snoc. simpl.
    apply Ascii.eqb_neq in Hc. rewrite Hc. reflexivity.
  - intros u base. unfold trim_slash.
    destruct (PyStr.last_char u) as [c|e] eqn:E; [|discriminate]. simpl.
    destruct (Ascii.eqb_spec c "/"%char) as [->|_]; intros [= <-].
    + left. apply PyStrMore.snoc_last, E.
    + right. reflexivity.
Qed.

Lemma trim_slash_is_trimmed (u base : string) :
  trim_slash u = Ok base -> base = trimmed u.
Proof.
  unfold trim_slash, trimmed, ends_with_slash.
  destruct (PyStr.last_char u) as [c|e]; [|discriminate]. simpl.
  destruct (Ascii.eqb c "/"%char); intros [= <-]; reflexivity.
Qed.

Lemma article_step_inv (data : Response) (article : PageElement)
    (links out : list string) :
  article_step data article links = Ok out ->
  exists o, first_href article = Ok o /\
            out = links ++ listed (trimmed (Resp.url data)) [o].
Proof.
  unfold article_step, first_href.
  destruct (Bs4.find "a" article) as [link|].
  - destruct (trim_slash (Resp.url data)) as [base|e] eqn:Eb; [|discriminate].
    apply trim_slash_is_trimmed in Eb as ->. simpl.
    destruct (Bs4.getitem link "href") as [h|e]; [|discriminate]. simpl.
    rewrite remove_tracking_before. simpl. intros [= <-].
    exists (Some h). split; reflexivity.
  - intros [= <-]. exists None. simpl. rewrite app_nil_r.
    split; reflexivity.
Qed.

Lemma article_loop_inv (data : Response) (articles : list PageElement) :
  forall links out : list string,
    article_loop data articles links = Ok out ->
    exists hs,
      Forall2 (fun article o => first_href article = Ok o) articles hs /\
      out = links ++ listed (trimmed (Resp.url data)) hs.
Proof.
  induction articles as [|article articles IH]; intros links out H.
  - injection H as <-. exists []. rewrite app_nil_r. split; constructor.
  - cbn [article_loop] in H.
    destruct (article_step data article links) as [mid|e] eqn:Es;
      [|discriminate].
    cbn [result_bind] in H.
    destruct (article_step_inv _ _ _ _ Es) as (o & Ho & ->).
    destruct (IH _ _ H) as (hs & HF & ->).
    exists (o :: hs). split; [constructor; assumption|].
    rewrite <- app_assoc. unfold listed. simpl. rewrite app_nil_r.
    reflexivity.
Qed.

Lemma listed_clean (base : string) (hs : list (option string)) :
  Forall (fun x => PyStr.contains "?" x = false) (listed base hs).
Proof.
  unfold listed. apply Forall_forall. intros x Hx.
  apply in_flat_map in Hx as (o & _ & Hin).
  destruct o as [h|]; [destruct Hin as [<-|[]]|destruct Hin].
  apply PyStrFacts.before_first_clean.
Qed.

Lemma listed_length (base : string) (hs : list (option string)) :
  length (listed base hs) <= length hs.
Proof.
  unfold listed. induction hs as [|[h|] hs IH]; simpl; lia.
Qed.

Lemma get_medium_article_links_inv
    (requests_get : string -> Result Response)
    (BeautifulSoup : string -> PageElement)
    (u : string) (w w' : World) (links : list string) :
  get_medium_article_links requests_get BeautifulSoup u w = (Ok links, w') ->
  exists data hs,
    requests_get u = Ok data /\
    Forall2 (fun article o => first_href article = Ok o)
      (Bs4.find_all "article" (BeautifulSoup (Resp.text data))) hs /\
    links = listed (trimmed (Resp.url data)) hs /\
    w' = mkWorld (S (clock w)) (requested w ++ [u]).
Proof.
  unfold get_medium_article_links, bind, make_request, lift.
  destruct (requests_get u) as [data|e]; [|discriminate].
  intros [= H <-].
  destruct (article_loop_inv _ _ _ _ H) as (hs & HF & ->).
  exists data, hs. repeat split; assumption.
Qed.

(** X6.  Whenever the lister returns, it has made exactly one request, no
    listed URL holds a '?', and there are at most as many URLs as the
    page has article blocks. *)
Theorem get_medium_article_links_returns
    (requests_get : string -> Result Response)
    (BeautifulSoup : string -> PageElement)
    (u : string) (w w' : World) (links : list string) :
  get_medium_article_links requests_get BeautifulSoup u w = (Ok links, w') ->
  w' = mkWorld (S (clock w)) (requested w ++ [u])
  /\ Forall (fun x => PyStr.contains "?" x = false) links
  /\ exists data,
       requests_get u = Ok data /\
       length links <=
       length (Bs4.find_all "article" (BeautifulSoup (Resp.text data))).
Proof.
  intros H.
  destruct (get_medium_article_links_inv _ _ _ _ _ _ H)
    as (data & hs & Hg & HF & -> & ->).
  split; [reflexivity|]. split; [apply listed_clean|].
  exists data. split; [exact Hg|].
  rewrite (Forall2_length HF). apply listed_length.
Qed.

Lemma get_medium_article_links_returns_witness :
  Web.listed_world = mkWorld 1 ([] ++ ["https://medium.com/@pub"])
  /\ Forall (fun x => PyStr.contains "?" x = false) Web.articles
  /\ exists data,
       Web.get "https://medium.com/@pub" = Ok data /\
       length Web.articles <=
       length (Bs4.find_all "article" (Web.parse (Resp.text data))).
Proof.
  exact (get_medium_article_links_returns Web.get Web.parse
           "https://medium.com/@pub" Web.start Web.listed_world
           Web.articles eq_refl).
Defined.

Lemma query_in_trimmed (u : string) :
  PyStr.contains "?" u = true ->
  PyStr.contains "?" (trimmed u) = true /\
  PyStr.before_first "?"%char (trimmed u) = PyStr.before_first "?"%char u.
Proof.
  intros H. unfold trimmed, ends_with_slash.
  destruct (PyStr.last_char u) as [c|e] eqn:E; [|split; [exact H|reflexivity]].
  destruct (Ascii.eqb_spec c "/"%char) as [->|_];
    [|split; [exact H|reflexivity]].
  pose proof (PyStrMore.snoc_last _ _ E) as Eu.
  rewrite Eu in H at 1. rewrite PyStrMore.contains_char_app in H.
  change (PyStr.contains "?" "/") with false in H.
  rewrite orb_false_r in H. split; [exact H|].
  rewrite Eu at 2. symmetry. apply PyStrMore.before_first_app_left, H.
Qed.

(** X7.  When the resolved URL of the profile page holds a '?', the cut
    at the first '?' falls inside the base: every listed URL is the
    resolved URL up to its first '?', whatever the hrefs are. *)
Theorem get_medium_article_links_query_in_base
    (requests_get : string -> Result Response)
    (BeautifulSoup : string -> PageElement)
    (u : string) (data : Response) (w w' : World) (links : list string) :
  requests_get u = Ok data ->
  PyStr.contains "?" (Resp.url data) = true ->
  get_medium_article_links requests_get BeautifulSoup u w = (Ok links, w') ->
  Forall (fun x => x = PyStr.before_first "?"%char (Resp.url data)) links.
Proof.
  intros Hg Hq H.
  destruct (get_medium_article_links_inv _ _ _ _ _ _ H)
    as (data' & hs & Hg' & _ & -> & _).
  rewrite Hg in Hg'. injection Hg' as <-.
  destruct (query_in_trimmed _ Hq) as [Hc Hb].
  apply Forall_forall. intros x Hx. unfold listed in Hx.
  apply in_flat_map in Hx as (o & _ & Hin).
  destruct o as [h|]; [destruct Hin as [<-|[]]|destruct Hin].
  unfold article_url.
  rewrite (PyStrMore.before_first_app_left _ _ _ Hc). exact Hb.
Qed.

Lemma get_medium_article_links_query_in_base_witness :
  Forall (fun x => x = PyStr.before_first "?"%char
                         "https://pub.medium.com/?source=home")
         ["https://pub.medium.com/"; "https://pub.medium.com/"].
Proof.
  exact (get_medium_article_links_query_in_base Feed.get Feed.parse
           "https://medium.com/@pub?source=home" Feed.tracked_profile
           Web.start (mkWorld 1 ["https://medium.com/@pub?source=home"])
           ["https://pub.medium.com/"; "https://pub.medium.com/"]
           eq_refl eq_refl eq_refl).
Defined.

Lemma find_is_tag (name : string) (t x : PageElement) :
  Bs4.find name t = Some x ->
  exists n attrs contents, x = Tag n attrs contents.
Proof.
  unfold Bs4.find, Bs4.find_all.
  destruct (filter (Bs4.is_tag name) (Bs4.descendants t)) as [|y l] eqn:E;
    [discriminate|].
  intros [= ->].
  assert (Hin : In x (filter (Bs4.is_tag name) (Bs4.descendants t)))
    by (rewrite E; left; reflexivity).
  apply filter_In in Hin as [_ Ht].
  destruct x as [s|n attrs contents]; [discriminate|]. eauto.
Qed.

Lemma first_href_raises (article : PageElement) (e : exception) :
  first_href article = Raise e -> e = KeyError "href".
Proof.
  unfold first_href.
  destruct (Bs4.find "a" article) as [link|] eqn:E; [|discriminate].
  destruct (find_is_tag _ _ _ E) as (n & attrs & contents & ->). simpl.
  destruct (Bs4.lookup "href" attrs); simpl; [discriminate|].
  intros [= <-]. reflexivity.
Qed.

Lemma article_step_raises (data : Response) (article : PageElement)
    (links : list string) (e : exception) :
  Resp.url data <> EmptyString ->
  first_href article = Raise e ->
  article_step data article links = Raise e.
Proof.
  intros Hu. unfold first_href, article_step.
  destruct (Bs4.find "a" article) as [link|]; [|discriminate].
  rewrite (trim_slash_trimmed _ Hu). simpl.
  destruct (Bs4.getitem link "href"); simpl; [discriminate|].
  intros [= <-]. reflexivity.
Qed.

Lemma article_loop_raises (data : Response)
    (before : list PageElement) (hs : list (option string))
    (article : PageElement) (after : list PageElement) (e : exception) :
  Resp.url data <> EmptyString ->
  Forall2 (fun a o => first_href a = Ok o) before hs ->
  first_href article = Raise e ->
  forall links,
    article_loop data (before ++ article :: after) links = Raise e.
Proof.
  intros Hu HF He. induction HF as [|a o before hs H _ IH]; intros links.
  - simpl. rewrite (article_step_raises _ _ _ _ Hu He). reflexivity.
  - simpl. rewrite (article_step_listed _ _ _ _ Hu H). simpl. apply IH.
Qed.

(** X8.  One article block whose first anchor has no href aborts the
    listing: when the blocks before it are fine, the lister raises
    [KeyError] for that block and returns no URL at all, not even those of
    the blocks before. *)
Theorem get_medium_article_links_bad_block
    (requests_get : string -> Result Response)
    (BeautifulSoup : string -> PageElement)
    (u : string) (data : Response) (w : World)
    (before : list PageElement) (hs : list (option string))
    (article : PageElement) (after : list PageElement) (e : exception) :
  requests_get u = Ok data ->
  Resp.url data <> EmptyString ->
  Bs4.find_all "article" (BeautifulSoup (Resp.text data)) =
    before ++ article :: after ->
  Forall2 (fun a o => first_href a = Ok o) before hs ->
  first_href article = Raise e ->
  e = KeyError "href"
  /\ get_medium_article_links requests_get BeautifulSoup u w =
     (Raise (KeyError "href"), mkWorld (S (clock w)) (requested w ++ [u])).
Proof.
  intros Hg Hu Ha HF He.
  pose proof (first_href_raises _ _ He) as ->. split; [reflexivity|].
  rewrite (get_medium_article_links_run _ _ _ _ _ Hg), Ha.
  rewrite (article_loop_raises _ _ _ _ _ _ Hu HF He). reflexivity.
Qed.

Lemma get_medium_article_links_bad_block_witness :
  KeyError "href" = KeyError "href"
  /\ get_medium_article_links Feed.get Feed.parse
       "https://medium.com/@broken" Web.start =
     (Raise (KeyError "href"), mkWorld 1 ["https://medium.com/@broken"]).
Proof.
  refine (get_medium_article_links_bad_block Feed.get Feed.parse
            "https://medium.com/@broken"
            (Web.page200 "https://pub.medium.com/" Feed.broken_text)
            Web.start
            [Tag "article" [] [Web.a_href "/post-1" "One"]]
            [Some "/post-1"]
            (Tag "article" [] [Web.named_anchor; Web.a_href "/post-2" "Two"])
            [] (KeyError "href") eq_refl _ eq_refl _ eq_refl).
  - discriminate.
  - constructor; [reflexivity|constructor].
Defined.

(** ** Link.create_link, further *)

Lemma last_default (l : list string) (d d' : string) :
  l <> [] -> last l d = last l d'.
Proof.
  induction l as [|x l IH]; [congruence|]. intros _.
  destruct l as [|y l]; [reflexivity|].
  change (last (y :: l) d = last (y :: l) d'). apply IH. discriminate.
Qed.

Lemma Link_init_some (u a : string) (status : Z) (l : list string) :
  Link_init u a status (Some l) = mkLink u a status l (last l u).
Proof.
  destruct l as [|x l]; [reflexivity|].
  unfold Link_init. cbn [given_or_empty length Nat.eqb].
  f_equal. apply last_default. discriminate.
Qed.

Lemma create_link_run (requests_get : string -> Result Response)
    (u a : string) (w : World) :
  create_link requests_get u a w =
  (match requests_get u with
   | Ok data => Ok (expected_link u a data)
   | Raise e => Raise e
   end,
   mkWorld (S (clock w)) (requested w ++ [u])).
Proof.
  unfold create_link, bind, make_request, expected_link.
  destruct (requests_get u) as [data|e]; [|reflexivity].
  unfold Resp.truthy, Resp.ok, error_status.
  destruct ((400 <=? Resp.status_code data)%Z &&
            (Resp.status_code data <? 600)%Z); simpl; [reflexivity|].
  unfold ret. rewrite collect_redirects_map, Link_init_some. reflexivity.
Qed.

(** X9.  [create_link] makes exactly one request.  When it raises, so
    does [create_link]; when the response has a status in 400..599 the
    result is [None]; otherwise it is the Link of the given url and anchor
    with that status, the URLs of the response's history in order as
    redirect chain, and the last of them (or the url, without history) as
    final URL. *)
Theorem create_link_outcome (requests_get : string -> Result Response)
    (u a : string) (w : World) :
  snd (create_link requests_get u a w) =
    mkWorld (S (clock w)) (requested w ++ [u])
  /\ fst (create_link requests_get u a w) =
     match requests_get u with
     | Raise e => Raise e
     | Ok data =>
         if ((400 <=? Resp.status_code data)%Z &&
             (Resp.status_code data <? 600)%Z)
         then Ok None
         else Ok (Some (mkLink u a (Resp.status_code data)
                          (map Resp.url (Resp.history data))
                          (last (map Resp.url (Resp.history data)) u)))
     end.
Proof.
  rewrite create_link_run. split; [reflexivity|]. simpl.
  destruct (requests_get u) as [data|e]; [|reflexivity].
  unfold expected_link, error_status.
  destruct ((400 <=? Resp.status_code data)%Z &&
            (Resp.status_code data <? 600)%Z); reflexivity.
Qed.

(** X10.  Building a Link again from the fields of a constructed Link
    gives the same Link. *)
Theorem Link_init_rebuild (u a : string) (status : Z)
    (chain : option (list string)) :
  let l := Link_init u a status chain in
  Link_init (url l) (anchor l) (http_status l) (Some (redirect_chain l)) = l.
Proof.
  cbn zeta. rewrite (Link_init_some (url _)).
  destruct chain as [c|].
  - rewrite Link_init_some. reflexivity.
  - reflexivity.
Qed.

(** ** check_medium_article_links, further *)

Section LinkLoop.

Variable requests_get : string -> Result Response.
Variable BeautifulSoup : string -> PageElement.
Variable fqdn : string -> string.

Lemma after_requests_cons (w : World) (h : string) (urls : list string) :
  after_requests (mkWorld (S (clock w)) (requested w ++ [h])) urls =
  after_requests w (h :: urls).
Proof.
  unfold after_requests. simpl. f_equal.
  - lia.
  - rewrite <- app_assoc. reflexivity.
Qed.

Lemma after_requests_nil (w : World) : after_requests w [] = w.
Proof.
  unfold after_requests. destruct w as [c r]. simpl.
  rewrite Nat.add_0_r, app_nil_r. reflexivity.
Qed.

Lemma checked_links_cons (h txt : string) (data : Response)
    (pairs : list (string * string)) :
  requests_get h = Ok data ->
  checked_links requests_get ((h, txt) :: pairs) =
  match expected_link h txt data with
  | Some l => l :: checked_links requests_get pairs
  | None => checked_links requests_get pairs
  end.
Proof.
  intros H. unfold checked_links. simpl. rewrite H.
  destruct (expected_link h txt data); reflexivity.
Qed.

Lemma link_loop_checks (domain : string) (anchors : list PageElement)
    (hrefs : list string) :
  Forall2 (fun a h => extract_href a domain "https" true = Ok h)
          anchors hrefs ->
  Forall (fun h => exists data, requests_get h = Ok data) hrefs ->
  forall (links : list Link) (w : World),
    link_loop requests_get domain anchors links w =
    (Ok (links ++
         checked_links requests_get
           (combine hrefs (map Bs4.get_text_strip anchors))),
     after_requests w hrefs).
Proof.
  induction 1 as [|a h anchors hrefs Ha _ IH]; intros Hr links w.
  - simpl. rewrite app_nil_r, after_requests_nil. reflexivity.
  - inversion Hr as [|? ? [data Hd] Hr']; subst.
    cbn [link_loop]. unfold bind at 1, lift. rewrite Ha.
    unfold bind at 1. rewrite create_link_run, Hd.
    cbn [map combine]. rewrite (checked_links_cons _ _ _ _ Hd).
    destruct (expected_link h (Bs4.get_text_strip a) data) as [l|];
      rewrite (IH Hr'), after_requests_cons; [|reflexivity].
    rewrite <- app_assoc. reflexivity.
Qed.

Lemma link_loop_inv (domain : string) (anchors : list PageElement) :
  forall (links out : list Link) (w w' : World),
    link_loop requests_get domain anchors links w = (Ok out, w') ->
    exists hrefs,
      Forall2 (fun a h => extract_href a domain "https" true = Ok h)
              anchors hrefs /\
      Forall (fun h => exists data, requests_get h = Ok data) hrefs /\
      out = links ++
            checked_links requests_get
              (combine hrefs (map Bs4.get_text_strip anchors)) /\
      w' = after_requests w hrefs.
Proof.
  induction anchors as [|a anchors IH]; intros links out w w' H.
  - injection H as <- <-. exists []. simpl.
    rewrite app_nil_r, after_requests_nil. repeat split; constructor.
  - cbn [link_loop] in H. unfold bind at 1, lift in H.
    destruct (extract_href a domain "https" true) as [h|e] eqn:Ha;
      [|discriminate].
    unfold bind at 1 in H. rewrite create_link_run in H.
    destruct (requests_get h) as [data|e] eqn:Hd; [|discriminate].
    assert (exists mid,
              link_loop requests_get domain anchors mid
                (mkWorld (S (clock w)) (requested w ++ [h])) = (Ok out, w') /\
              mid = links ++
                    match expected_link h (Bs4.get_text_strip a) data with
                    | Some l => [l]
                    | None => []
                    end) as (mid & Hm & ->).
    { destruct (expected_link h (Bs4.get_text_strip a) data) as [l|];
        eexists; split; try exact H; try reflexivity.
      rewrite app_nil_r. reflexivity. }
    destruct (IH _ _ _ _ Hm) as (hrefs & HF & Hr & -> & ->).
    exists (h :: hrefs). repeat split.
    + constructor; assumption.
    + constructor; eauto.
    + cbn [map combine]. rewrite (checked_links_cons _ _ _ _ Hd).
      rewrite <- app_assoc.
      destruct (expected_link h (Bs4.get_text_strip a) data); reflexivity.
    + apply after_requests_cons.
Qed.

Lemma checked_links_length (pairs : list (string * string)) :
  length (checked_links requests_get pairs) <= length pairs.
Proof.
  unfold checked_links. induction pairs as [|[h txt] pairs IH]; simpl; [lia|].
  rewrite length_app.
  destruct (requests_get h) as [data|e]; simpl; [|lia].
  destruct (expected_link h txt data); simpl; lia.
Qed.

Lemma checked_links_in (pairs : list (string * string)) (l : Link) :
  In l (checked_links requests_get pairs) ->
  exists h txt data,
    In (h, txt) pairs /\ requests_get h = Ok data /\
    expected_link h txt data = Some l.
Proof.
  unfold checked_links. intros H.
  apply in_flat_map in H as ([h txt] & Hp & Hl). simpl in Hl.
  destruct (requests_get h) as [data|e] eqn:Hd; [|destruct Hl].
  destruct (expected_link h txt data) as [l'|] eqn:He; [|destruct Hl].
  destruct Hl as [<-|[]]. exists h, txt, data. repeat split; assumption.
Qed.

Lemma normalised_in (domain : string) (anchors : list PageElement)
    (hrefs : list string) (h : string) :
  Forall2 (fun a x => extract_href a domain "https" true = Ok x)
          anchors hrefs ->
  In h hrefs ->
  exists a, In a anchors /\ extract_href a domain "https" true = Ok h.
Proof.
  induction 1 as [|a x anchors hrefs Ha _ IH]; intros Hin; [destruct Hin|].
  destruct Hin as [->|Hin].
  - exists a. split; [left; reflexivity|exact Ha].
  - destruct (IH Hin) as (a' & Hi & He). exists a'. split; [right|]; assumption.
Qed.

Lemma extract_href_ok_source (a : PageElement) (domain scheme : string)
    (strip_params : bool) (r : string) :
  extract_href a domain scheme strip_params = Ok r ->
  exists x, reconstitute domain scheme x = Ok r.
Proof.
  destruct a as [s|name attrs contents]; [discriminate|].
  destruct (Bs4.lookup "href" attrs) as [h|] eqn:E.
  - rewrite (extract_href_present _ _ _ _ _ _ _ E). eauto.
  - unfold extract_href. simpl. rewrite E. discriminate.
Qed.

Lemma check_medium_article_links_inv (u : string) (w w' : World)
    (out : list Link) :
  check_medium_article_links requests_get BeautifulSoup fqdn u w =
    (Ok out, w') ->
  exists data art hrefs,
    requests_get u = Ok data /\
    Bs4.find "article" (BeautifulSoup (Resp.text data)) = Some art /\
    Forall2 (fun a h => extract_href a (fqdn u) "https" true = Ok h)
            (Bs4.find_all "a" art) hrefs /\
    Forall (fun h => exists r, requests_get h = Ok r) hrefs /\
    out = checked_links requests_get
            (combine hrefs (map Bs4.get_text_strip (Bs4.find_all "a" art))) /\
    w' = after_requests w (u :: hrefs).
Proof.
  unfold check_medium_article_links, bind, make_request.
  destruct (requests_get u) as [data|e] eqn:Hg; [|discriminate].
  destruct (Bs4.find "article" (BeautifulSoup (Resp.text data)))
    as [art|] eqn:Hf; [|discriminate].
  intros H.
  destruct (link_loop_inv _ _ _ _ _ _ H) as (hrefs & HF & Hr & -> & ->).
  exists data, art, hrefs.
  split; [reflexivity|]. split; [exact Hf|]. split; [exact HF|].
  split; [exact Hr|]. split; [reflexivity|].
  apply after_requests_cons.
Qed.

(** X11.  When the page has an article block, every anchor of the block
    normalises and every normalised URL is answered, the checker returns:
    the result holds, in document order, one Link for each anchor whose
    response has no error status, and the requests made are the page
    followed by each normalised URL once, in document order. *)
Theorem check_medium_article_links_checks
    (u : string) (data : Response) (art : PageElement)
    (hrefs : list string) (w : World) :
  requests_get u = Ok data ->
  Bs4.find "article" (BeautifulSoup (Resp.text data)) = Some art ->
  Forall2 (fun a h => extract_href a (fqdn u) "https" true = Ok h)
          (Bs4.find_all "a" art) hrefs ->
  Forall (fun h => exists r, requests_get h = Ok r) hrefs ->
  check_medium_article_links requests_get BeautifulSoup fqdn u w =
  (Ok (checked_links requests_get
         (combine hrefs (map Bs4.get_text_strip (Bs4.find_all "a" art)))),
   mkWorld (clock w + S (length hrefs)) (requested w ++ u :: hrefs)).
Proof.
  intros Hg Hf HF Hr.
  unfold check_medium_article_links, bind, make_request.
  rewrite Hg, Hf, (link_loop_checks _ _ _ HF Hr). simpl.
  rewrite after_requests_cons. reflexivity.
Qed.

(** X12.  Whenever the checker returns, it has requested the page and
    then one URL per anchor of the article block, and it returns at most
    one Link per anchor. *)
Theorem check_medium_article_links_requests
    (u : string) (w w' : World) (out : list Link) :
  check_medium_article_links requests_get BeautifulSoup fqdn u w =
    (Ok out, w') ->
  exists data art hrefs,
    requests_get u = Ok data
    /\ Bs4.find "article" (BeautifulSoup (Resp.text data)) = Some art
    /\ length hrefs = length (Bs4.find_all "a" art)
    /\ requested w' = requested w ++ u :: hrefs
    /\ clock w' = clock w + 1 + length (Bs4.find_all "a" art)
    /\ length out <= length (Bs4.find_all "a" art).
Proof.
  intros H.
  destruct (check_medium_article_links_inv _ _ _ _ H)
    as (data & art & hrefs & Hg & Hf & HF & _ & -> & ->).
  exists data, art, hrefs.
  pose proof (Forall2_length HF) as Hl.
  repeat split; try assumption; try (symmetry; assumption).
  - simpl. lia.
  - etransitivity; [apply checked_links_length|].
    rewrite length_combine, length_map. lia.
Qed.

(** X13.  Every Link the checker returns has a status outside 400..599,
    a non-empty url, and as final URL the last element of its redirect
    chain, or its url when the chain is empty. *)
Theorem check_medium_article_links_output
    (u : string) (w w' : World) (out : list Link) :
  check_medium_article_links requests_get BeautifulSoup fqdn u w =
    (Ok out, w') ->
  Forall (fun l =>
            error_status (http_status l) = false
            /\ url l <> EmptyString
            /\ final_url l = last (redirect_chain l) (url l)) out.
Proof.
  intros H.
  destruct (check_medium_article_links_inv _ _ _ _ H)
    as (data & art & hrefs & _ & _ & HF & _ & -> & _).
  apply Forall_forall. intros l Hl.
  apply checked_links_in in Hl as (h & txt & r & Hp & _ & He).
  apply in_combine_l in Hp.
  destruct (normalised_in _ _ _ _ HF Hp) as (a & _ & Ha).
  destruct (extract_href_ok_source _ _ _ _ _ Ha) as (x & Hx).
  apply reconstitute_not_empty in Hx.
  unfold expected_link in He.
  destruct (error_status (Resp.status_code r)) eqn:Es; [discriminate|].
  injection He as <-. simpl. repeat split; assumption.
Qed.

End LinkLoop.

Lemma check_medium_article_links_checks_witness :
  check_medium_article_links Web.get Web.parse Web.host
    "https://pub.medium.com/post-1" Web.start =
  (Ok Web.links1,
   mkWorld 4 [ "https://pub.medium.com/post-1"; "https://example.com/a";
               "https://pub.medium.com/about"; "https://example.com/gone" ]).
Proof.
  refine (check_medium_article_links_checks Web.get Web.parse Web.host
            "https://pub.medium.com/post-1"
            (Web.page200 "https://pub.medium.com/post-1" Web.post1_text)
            (Tag "article" []
               [ Web.a_href "https://example.com/a?utm=1" " A ";
                 Web.a_href "/about" "About";
                 Web.a_href "https://example.com/gone" "Gone" ])
            [ "https://example.com/a"; "https://pub.medium.com/about";
              "https://example.com/gone" ]
            Web.start eq_refl eq_refl _ _).
  - repeat constructor.
  - repeat constructor; eexists; reflexivity.
Defined.

Lemma check_medium_article_links_requests_witness :
  exists data art hrefs,
    Web.get "https://pub.medium.com/post-1" = Ok data
    /\ Bs4.find "article" (Web.parse (Resp.text data)) = Some art
    /\ length hrefs = length (Bs4.find_all "a" art)
    /\ requested Web.post1_world =
       requested Web.listed_world ++ "https://pub.medium.com/post-1" :: hrefs
    /\ clock Web.post1_world =
       clock Web.listed_world + 1 + length (Bs4.find_all "a" art)
    /\ length Web.links1 <= length (Bs4.find_all "a" art).
Proof.
  exact (check_medium_article_links_requests Web.get Web.parse Web.host
           "https://pub.medium.com/post-1" Web.listed_world Web.post1_world
           Web.links1 eq_refl).
Defined.

Lemma check_medium_article_links_output_witness :
  Forall (fun l =>
            error_status (http_status l) = false
            /\ url l <> EmptyString
            /\ final_url l = last (redirect_chain l) (url l)) Web.links2.
Proof.
  exact (check_medium_article_links_output Web.get Web.parse Web.host
           "https://pub.medium.com/post-2" Web.post1_world Web.post2_world
           Web.links2 eq_refl).
Defined.

(** ** check_medium_links, further *)

Section RunAborts.

Variable requests_get : string -> Result Response.
Variable BeautifulSoup : string -> PageElement.
Variable fqdn : string -> string.
Variable str_time : nat -> string.

Lemma report_loop_raises (before : list string) (w w' : World)
    (trace : list (string * list Link * World)) :
  checked_in_order requests_get BeautifulSoup fqdn before w trace w' ->
  forall (link : string) (after : list string) (e : exception) (w'' : World)
         (output : list PyVal),
    check_medium_article_links requests_get BeautifulSoup fqdn link w' =
      (Raise e, w'') ->
    report_loop requests_get BeautifulSoup fqdn str_time
      (before ++ link :: after) output w = (Raise e, w'').
Proof.
  induction 1 as [w|l rest w w1 w2 article_links trace Hc _ IH];
    intros link after e w'' output He.
  - simpl. unfold bind at 1. rewrite He. reflexivity.
  - simpl. unfold bind at 1. rewrite Hc. unfold bind at 1, time_time.
    apply IH, He.
Qed.

(** X14.  One article whose check raises aborts the whole run: when the
    articles listed before it were checked without an exception,
    [check_medium_links] raises that exception in the world where the
    check failed, and returns no record -- those of the articles already
    checked are lost, and the articles after it are never requested. *)
Theorem check_medium_links_aborts
    (profile_url : string) (before : list string) (link : string)
    (after : list string) (w0 w1 w2 w3 : World)
    (trace : list (string * list Link * World)) (e : exception) :
  get_medium_article_links requests_get BeautifulSoup profile_url w0 =
    (Ok (before ++ link :: after), w1) ->
  checked_in_order requests_get BeautifulSoup fqdn before w1 trace w2 ->
  check_medium_article_links requests_get BeautifulSoup fqdn link w2 =
    (Raise e, w3) ->
  check_medium_links requests_get BeautifulSoup fqdn str_time profile_url w0 =
    (Raise e, w3).
Proof.
  intros Hl Hc He. unfold check_medium_links, bind. rewrite Hl.
  apply (report_loop_raises _ _ _ _ Hc _ _ _ _ _ He).
Qed.

End RunAborts.

Lemma check_medium_links_aborts_witness :
  check_medium_links Feed.get Feed.parse Web.host Web.tally
    "https://medium.com/@mixed" Web.start =
  (Raise (AttributeError "'NoneType' object has no attribute 'find_all'"),
   Feed.mixed_plain_world).
Proof.
  refine (check_medium_links_aborts Feed.get Feed.parse Web.host Web.tally
            "https://medium.com/@mixed"
            ["https://pub.medium.com/post-1"] "https://pub.medium.com/plain"
            ["https://pub.medium.com/post-2"]
            Web.start Feed.mixed_listed_world Feed.mixed_post1_world
            Feed.mixed_plain_world
            [ ("https://pub.medium.com/post-1", Web.links1,
               Feed.mixed_post1_world) ]
            _ _ _ _).
  - vm_compute. reflexivity.
  - apply checked_cons with (w' := Feed.mixed_post1_world);
      [vm_compute; reflexivity|apply checked_nil].
  - vm_compute. reflexivity.
Defined.

(** ** Where the listing and the report stop short *)

(** C7 (the code departs from the claim).  A block whose first anchor
    has no href is neither listed nor skipped: the anchor passes the
    [if link:] test, [link['href']] raises [KeyError], and the lister
    returns nothing.  So it is on a feed whose only block holds only such
    an anchor, and on a feed whose second block holds such an anchor
    before its one hyperlink. *)
Theorem lister_raises_on_anchor_without_href :
  Placeholder.get "https://medium.com/@anchor" = Ok Placeholder.feed
  /\ Bs4.find_all "article"
       (Placeholder.parse (Resp.text Placeholder.feed)) =
     [Placeholder.feed_block]
  /\ Bs4.find_all "a" Placeholder.feed_block = [Web.named_anchor]
  /\ Bs4.getitem Web.named_anchor "href" = Raise (KeyError "href")
  /\ get_medium_article_links Placeholder.get Placeholder.parse
       "https://medium.com/@anchor" Web.start =
     (Raise (KeyError "href"), mkWorld 1 ["https://medium.com/@anchor"])
  /\ map (fun article =>
            map (fun a => Bs4.getitem a "href") (Bs4.find_all "a" article))
         (Bs4.find_all "article" (Feed.parse Feed.broken_text)) =
     [ [Ok "/post-1"]; [Raise (KeyError "href"); Ok "/post-2"] ]
  /\ get_medium_article_links Feed.get Feed.parse
       "https://medium.com/@broken" Web.start =
     (Raise (KeyError "href"), mkWorld 1 ["https://medium.com/@broken"]).
Proof. repeat split; vm_compute; reflexivity. Qed.

(** C9 (counterexample).  On the mixed feed the listing discovers three
    article URLs, the second article page has no article block, and the
    run raises: no record is returned for any of them. *)
Lemma run_with_failing_article_reports_nothing :
  get_medium_article_links Feed.get Feed.parse "https://medium.com/@mixed"
    Web.start = (Ok Feed.mixed_articles, Feed.mixed_listed_world)
  /\ fst (check_medium_links Feed.get Feed.parse Web.host Web.tally
            "https://medium.com/@mixed" Web.start) =
     Raise (AttributeError "'NoneType' object has no attribute 'find_all'")
  /\ (every_run_reports -> False).
Proof.
  split; [vm_compute; reflexivity|].
  split; [vm_compute; reflexivity|].
  intros H.
  destruct (H Feed.get Feed.parse Web.host Web.tally
              "https://medium.com/@mixed" Feed.mixed_articles Web.start
              Feed.mixed_listed_world eq_refl) as (output & Hout & _).
  vm_compute in Hout. discriminate Hout.
Qed.
